(** * The apiserver receive adapter: stats reporter and process start-up

    A shallow embedding of

    - [pkg/adapter/apiserver/stats_reporter.go] (the apiserver importer's
      stats reporter: [NewStatsReporter], [ReportEventCount], [generateTag]),
    - [cmd/apiserver_receive_adapter/main.go] (the adapter's [main]),
    - the ingress stats reporter, of which only the test is at hand,

    together with the part of the metrics machinery those functions call:
    the tag maps of [go.opencensus.io/tag] and the view worker of
    [go.opencensus.io/stats/view]. *)

From Stdlib Require Import ZArith String Ascii List Lia DecimalString DecimalFacts.
From stdpp Require Import base option gmap strings list fin_maps.

Local Open Scope string_scope.
Local Open Scope Z_scope.

(** ** Go errors

  A value of Go's [error] interface is [option error]: [None] is [nil]. *)

Inductive error : Type :=
| errInvalidKeyName
| errInvalidValue
| errDifferentView (name : string)
| errorString (msg : string).

(** ** [go.opencensus.io/tag] *)

Module tag.

(** [tag.Key] is a struct holding the key's name; two keys are the same
    map key when their names are equal. *)
Definition Key : Type := string.

(** [tag.Map]: a Go map from keys to values. *)
Abbreviation Map := (gmap string string).

Definition maxKeyLength : nat := 255.

(** Only the printable characters 0x20 (space) to 0x7e (tilde) are accepted.
    The library ranges over the runes of the string; a byte outside ASCII
    starts a rune above 0x7e, so the test is the same byte by byte. *)
Definition validChar (c : ascii) : bool :=
  (32 <=? nat_of_ascii c)%nat && (nat_of_ascii c <=? 126)%nat.

Definition isASCII (s : string) : bool :=
  forallb validChar (list_ascii_of_string s).

Definition checkKeyName (name : string) : bool :=
  negb (String.length name =? 0)%nat
  && (String.length name <=? maxKeyLength)%nat
  && isASCII name.

Definition checkValue (v : string) : bool :=
  (String.length v <=? maxKeyLength)%nat && isASCII v.

Definition NewKey (name : string) : error + Key :=
  if checkKeyName name then inr name else inl errInvalidKeyName.

(** A mutator changes a tag map or fails. *)
Definition Mutator : Type := Map → error + Map.

(** [Map.insert]: the value is stored only when the key is not there yet. *)
Definition insert (k : Key) (v : string) (m : Map) : Map :=
  match m !! k with
  | Some _ => m
  | None => <[k := v]> m
  end.

Definition Insert (k : Key) (v : string) : Mutator :=
  fun m => if checkValue v then inr (insert k v m) else inl errInvalidValue.

Fixpoint mutate (ms : list Mutator) (m : Map) : error + Map :=
  match ms with
  | [] => inr m
  | mod_ :: rest =>
      match mod_ m with
      | inl e => inl e
      | inr m' => mutate rest m'
      end
  end.

(** [tag.New(ctx, mutators...)], for a context [ctx] that carries no tag
    map (such as [context.Background()]): the mutators are applied in
    order to a new, empty map; the first failure is returned. *)
Definition New (ms : list Mutator) : error + Map := mutate ms ∅.

End tag.

(** ** [go.opencensus.io/stats] and [go.opencensus.io/stats/view] *)

Module stats.

(** A measure, as made by [stats.Int64(name, description, unit)] or
    [stats.Float64]. *)
Record Measure : Type := mkMeasure {
  Name : string;
  Description : string;
  Unit_ : string
}.

Definition UnitDimensionless : string := "1".
Definition UnitMilliseconds : string := "ms".

Definition Int64 (name description unit_ : string) : Measure :=
  mkMeasure name description unit_.

(** A measurement: a value of a measure ([Measure.M(v)]). *)
Record Measurement : Type := mkMeasurement {
  measure : Measure;
  value : Z
}.

Definition M (m : Measure) (v : Z) : Measurement := mkMeasurement m v.

End stats.

Module view.

(** [view.Count()] returns the package's one [aggCount] value
    ([stats/view/aggregation.go]: [func Count() *Aggregation { return
    aggCount }]); [view.Distribution(bounds...)] allocates a new
    aggregation on every call. *)
Inductive Aggregation : Type :=
  | Count
  | Distribution (bounds : list Z).

Record View : Type := mkView {
  Name : string;
  Description : string;
  Measure : stats.Measure;
  Aggregation_ : Aggregation;
  TagKeys : list tag.Key
}.

(** The data a row aggregates: [CountData] counts the samples,
    [DistributionData] is kept here as the samples seen, oldest first. *)
Inductive AggregationData : Type :=
  | CountData (n : Z)
  | DistributionData (samples : list Z).

Definition newData (a : Aggregation) : AggregationData :=
  match a with
  | Count => CountData 0
  | Distribution _ => DistributionData []
  end.

Definition addSample (d : AggregationData) (v : Z) : AggregationData :=
  match d with
  | CountData n => CountData (n + 1)
  | DistributionData l => DistributionData (l ++ [v])%list
  end.

(** A registered view with its collector: one row of data for every
    signature, the values of the view's tag keys in order (a key the tag
    map lacks is encoded like the empty value). *)
Record viewInternal : Type := mkViewInternal {
  view_ : View;
  signatures : gmap (list string) AggregationData
}.

Definition encodeWithKeys (m : tag.Map) (keys : list tag.Key) : list string :=
  map (fun k => default "" (m !! k)) keys.

(** An observation handed to [stats.Record]: the tags of the context and
    the measurement. *)
Record observation : Type := mkObservation {
  tags : tag.Map;
  measurement : stats.Measurement
}.

(** The state of the default worker: the registered views by name, and
    the observations recorded so far, newest first. *)
Record worker : Type := mkWorker {
  views : gmap string viewInternal;
  recorded : list observation
}.

Definition newWorker : worker := mkWorker ∅ [].

(** [View.canonicalize]: a view without a name takes its measure's.  (Its
    checks, of the name and of a measure and an aggregation being there,
    pass for the views registered here; it also sorts the tag keys, an
    order that a row's tags, read as a map, do not show.) *)
Definition canonicalize (v : View) : View :=
  if (String.length (Name v) =? 0)%nat
  then mkView (stats.Name (Measure v)) (Description v) (Measure v)
              (Aggregation_ v) (TagKeys v)
  else v.

(** [reflect.DeepEqual] on two aggregations of two views built apart: the
    shared [aggCount] equals itself; two [Distribution] values are
    different pointers to structs that hold a function, never deeply
    equal. *)
Definition aggregationDeepEqual (a b : Aggregation) : bool :=
  match a, b with
  | Count, Count => true
  | _, _ => false
  end.

(** [View.same] ([stats/view/view.go]) compares the aggregations with
    [reflect.DeepEqual] and the names, the descriptions and the measures'
    names, descriptions and units with [==]; the tag keys are not
    compared. *)
Definition same (v other : View) : bool :=
  aggregationDeepEqual (Aggregation_ v) (Aggregation_ other)
  && String.eqb (Name v) (Name other)
  && String.eqb (Description v) (Description other)
  && String.eqb (stats.Name (Measure v)) (stats.Name (Measure other))
  && String.eqb (stats.Description (Measure v)) (stats.Description (Measure other))
  && String.eqb (stats.Unit_ (Measure v)) (stats.Unit_ (Measure other)).

(** [view.Register(v)] ([worker.tryRegisterView] in
    [stats/view/worker.go]): a name already taken by the same view is a
    success that changes nothing ("the view is already registered so there
    is nothing to do and the command is considered successful"), and the
    error "cannot register view; a different view with the same name is
    already registered" when the registered view is a different one. *)
Definition Register (v : View) (w : worker) : option error * worker :=
  let v := canonicalize v in
  match views w !! Name v with
  | Some x =>
      if same (view_ x) v then (None, w)
      else (Some (errDifferentView (Name v)), w)
  | None =>
      (None, mkWorker (<[Name v := mkViewInternal v ∅]> (views w)) (recorded w))
  end.

Definition Find (name : string) (w : worker) : option View :=
  view_ <$> views w !! name.

(** [view.Unregister(v)]: the view and its rows are dropped. *)
Definition Unregister (v : View) (w : worker) : worker :=
  mkWorker (delete (Name v) (views w)) (recorded w).

(** [viewInternal.addSample]. *)
Definition addSampleTo (m : tag.Map) (val : Z) (vi : viewInternal) : viewInternal :=
  let sig := encodeWithKeys m (TagKeys (view_ vi)) in
  let d := default (newData (Aggregation_ (view_ vi))) (signatures vi !! sig) in
  mkViewInternal (view_ vi) (<[sig := addSample d val]> (signatures vi)).

(** [stats.Record(ctx, ms)]: every registered view of the measure takes
    the sample under the signature of the context's tags. *)
Definition Record_ (m : tag.Map) (ms : stats.Measurement) (w : worker) : worker :=
  mkWorker
    ((fun vi =>
        if String.eqb (stats.Name (Measure (view_ vi)))
                      (stats.Name (stats.measure ms))
        then addSampleTo m (stats.value ms) vi
        else vi) <$> views w)
    (mkObservation m ms :: recorded w).

(** A row as [view.RetrieveData] returns it: [decodeTags] leaves out the
    keys whose encoded value is empty. *)
Definition decodeTags (keys : list tag.Key) (sig : list string) : tag.Map :=
  list_to_map (filter (fun kv => kv.2 ≠ "") (zip keys sig)).

Record Row : Type := mkRow {
  Tags : tag.Map;
  Data : AggregationData
}.

Definition RetrieveData (name : string) (w : worker) : option (list Row) :=
  match views w !! name with
  | None => None
  | Some vi =>
      Some (map (fun kd => mkRow (decodeTags (TagKeys (view_ vi)) kd.1) kd.2)
                (map_to_list (signatures vi)))
  end.

(** The views are kept under their own names. *)
Definition wf (w : worker) : Prop :=
  map_Forall (fun n vi => Name (view_ vi) = n) (views w).

(** The row of a registered view under a signature. *)
Definition row (name : string) (sig : list string) (w : worker)
  : option AggregationData :=
  match views w !! name with
  | None => None
  | Some vi => signatures vi !! sig
  end.

(** The [Count] of a row's data: the value of a [CountData], the number of
    samples of a [DistributionData]. *)
Definition count (d : AggregationData) : Z :=
  match d with
  | CountData n => n
  | DistributionData l => Z.of_nat (length l)
  end.

(** The count under a signature; a signature without a row has seen no
    sample. *)
Definition countOf (name : string) (sig : list string) (w : worker) : Z :=
  from_option count 0 (row name sig w).

End view.

(** ** The label constants

    The names of the tag keys are constants of
    [knative.dev/pkg/metrics/metricskey] and of
    [knative.dev/eventing/pkg/metrics/metricskey] ([Result],
    [LabelResponseCode], [LabelResponseCodeClass], [Any]); neither file is
    among the sources, so the constants are a parameter of the functions
    that use them. *)

Module metricskey.

Record Labels : Type := mkLabels {
  LabelNamespaceName : string;
  LabelEventType : string;
  LabelEventSource : string;
  LabelImporterName : string;
  LabelImporterResourceGroup : string;
  LabelBrokerName : string;
  Result : string;
  LabelResponseCode : string;
  LabelResponseCodeClass : string;
  Any : string
}.

(** The values the constants have in the two packages; used for the
    examples only. *)
Definition knative : Labels :=
  mkLabels "namespace_name" "event_type" "event_source" "importer_name"
           "importer_resource_group" "broker_name" "result"
           "response_code" "response_code_class" "any".

End metricskey.

(** ** A state and error monad over the metrics worker

    A Go function that returns [(T, error)] and works on the process-wide
    worker is a function from the worker to a result and the new worker. *)

Definition M (A : Type) : Type := view.worker → (error + A) * view.worker.

Definition ret {A : Type} (a : A) : M A := fun w => (inr a, w).

Definition lift {A : Type} (r : error + A) : M A := fun w => (r, w).

Definition bind {A B : Type} (m : M A) (f : A → M B) : M B :=
  fun w =>
    match m w with
    | (inl e, w') => (inl e, w')
    | (inr a, w') => f a w'
    end.

Declare Scope go_scope.
Delimit Scope go_scope with go.
Notation "'let*' x ':=' c1 'in' c2" := (bind c1 (fun x => c2))
  (at level 10, x name, c1 at level 100, c2 at level 200) : go_scope.

(** [view.Register] as a step of the monad. *)
Definition Register (v : view.View) : M unit :=
  fun w =>
    match view.Register v w with
    | (Some e, w') => (inl e, w')
    | (None, w') => (inr tt, w')
    end.

(** [metrics.Record(ctx, ms)] of [knative.dev/pkg/metrics], which hands the
    measurement to [stats.Record] (with no exporter configured, or one that
    lets every measure through). *)
Definition Record_ (ctx : tag.Map) (ms : stats.Measurement) : M unit :=
  fun w => (inr tt, view.Record_ ctx ms w).

(** [metricstest.Unregister(names...)]: every name that finds a view
    unregisters it. *)
Fixpoint Unregister (names : list string) (w : view.worker) : view.worker :=
  match names with
  | [] => w
  | n :: rest =>
      Unregister rest
        (match view.Find n w with
         | Some v => view.Unregister v w
         | None => w
         end)
  end.

(** Running a call [n] times, stopping at the first error. *)
Fixpoint times (n : nat) (m : M unit) : M unit :=
  match n with
  | O => ret tt
  | S n' => bind m (fun _ => times n' m)
  end.

(** ** [pkg/adapter/apiserver]: the stats reporter *)

Module apiserver.

Import metricskey.
Local Open Scope go_scope.

(** [eventCountM] counts the events sent by an importer. *)
Definition eventCountM : stats.Measure :=
  stats.Int64 "event_count" "Number of events created" stats.UnitDimensionless.

Record ReportArgs : Type := mkReportArgs {
  ns : string;
  eventType : string;
  eventSource : string;
  apiServerImporter : string
}.

Definition importerResourceGroupValue : string :=
  "apiserversources.sources.eventing.knative.dev".

(** [reporter] holds the tag keys. *)
Record reporter : Type := mkReporter {
  namespaceTagKey : tag.Key;
  eventTypeTagKey : tag.Key;
  eventSourceTagKey : tag.Key;
  importerNameTagKey : tag.Key;
  importerResourceGroupTagKey : tag.Key;
  resultKey : tag.Key
}.

(** Modelled from the spec: [Result(err)], a helper of the package whose
    file is not among the sources; the result is "success" if the passed
    delivery error is nil, else "failure". *)
Definition Result (err : option error) : string :=
  match err with
  | None => "success"
  | Some _ => "failure"
  end.

(** The view [NewStatsReporter] registers; it is given no name. *)
Definition eventCountView (r : reporter) : view.View :=
  view.mkView "" (stats.Description eventCountM) eventCountM view.Count
    [namespaceTagKey r; eventSourceTagKey r; eventTypeTagKey r;
     importerNameTagKey r; importerResourceGroupTagKey r].

Definition NewStatsReporter (L : Labels) : M reporter :=
  let* nsTag := lift (tag.NewKey (LabelNamespaceName L)) in
  let* eventTypeTag := lift (tag.NewKey (LabelEventType L)) in
  let* eventSourceTag := lift (tag.NewKey (LabelEventSource L)) in
  let* importerNameTag := lift (tag.NewKey (LabelImporterName L)) in
  let* importerResourceGroupTag := lift (tag.NewKey (LabelImporterResourceGroup L)) in
  let* resultTag := lift (tag.NewKey (metricskey.Result L)) in
  let r := mkReporter nsTag eventTypeTag eventSourceTag importerNameTag
                      importerResourceGroupTag resultTag in
  let* _ := Register (eventCountView r) in
  ret r.

Definition generateTag (r : reporter) (args : ReportArgs) (t : tag.Mutator)
  : error + tag.Map :=
  tag.New
    [tag.Insert (namespaceTagKey r) (ns args);
     tag.Insert (eventSourceTagKey r) (eventSource args);
     tag.Insert (eventTypeTagKey r) (eventType args);
     tag.Insert (importerNameTagKey r) (apiServerImporter args);
     t].

(** [ReportEventCount] captures the event count.  The context of the first
    [generateTag], which holds the result tag, is replaced by that of the
    second before anything is recorded. *)
Definition ReportEventCount (r : reporter) (args : ReportArgs)
    (err : option error) : M unit :=
  let* ctx := lift (generateTag r args
                      (tag.Insert (resultKey r) (Result err))) in
  let* ctx := lift (generateTag r args
                      (tag.Insert (importerResourceGroupTagKey r)
                                  importerResourceGroupValue)) in
  Record_ ctx (stats.M eventCountM 1).

(** The test's [unregister]. *)
Definition unregister : view.worker → view.worker :=
  Unregister ["event_count"].

End apiserver.


(** ** [k8s.io/apimachinery]: group, version, kind and resource *)

Module schema.

Record GroupVersion : Type := mkGroupVersion {
  Group : string;
  Version : string
}.

Record GroupVersionKind : Type := mkGroupVersionKind {
  gvkGroup : string;
  gvkVersion : string;
  gvkKind : string
}.

Record GroupVersionResource : Type := mkGroupVersionResource {
  gvrGroup : string;
  gvrVersion : string;
  gvrResource : string
}.

(** [strings.Count(s, "/")]. *)
Fixpoint countSlash (s : string) : nat :=
  match s with
  | EmptyString => O
  | String c s' => ((if Ascii.eqb c "/" then 1 else 0) + countSlash s')%nat
  end.

(** [s[:i]] and [s[i+1:]] for [i] the index of the first "/". *)
Fixpoint cutSlash (s : string) : string * string :=
  match s with
  | EmptyString => (EmptyString, EmptyString)
  | String c s' =>
      if Ascii.eqb c "/" then (EmptyString, s')
      else let '(a, b) := cutSlash s' in (String c a, b)
  end.

(** [schema.ParseGroupVersion]: "group/version", or a version alone; more
    than one "/" is an error. *)
Definition ParseGroupVersion (gv : string) : error + GroupVersion :=
  if (String.length gv =? 0)%nat || String.eqb gv "/"
  then inr (mkGroupVersion "" "")
  else
    match countSlash gv with
    | O => inr (mkGroupVersion "" gv)
    | S O => let '(g, v) := cutSlash gv in inr (mkGroupVersion g v)
    | _ => inl (errorString ("unexpected GroupVersion string: " ++ gv))
    end.

End schema.

Module meta.

Import schema.

(** [strings.ToLower], on the letters A to Z. *)
Definition lowerChar (c : ascii) : ascii :=
  let n := nat_of_ascii c in
  if (65 <=? n)%nat && (n <=? 90)%nat then ascii_of_nat (n + 32) else c.

Fixpoint ToLower (s : string) : string :=
  match s with
  | EmptyString => EmptyString
  | String c s' => String (lowerChar c) (ToLower s')
  end.

Definition HasSuffix (s suffix : string) : bool :=
  (String.length suffix <=? String.length s)%nat
  && String.eqb
       (substring (String.length s - String.length suffix)
                  (String.length suffix) s)
       suffix.

Definition unpluralizedSuffixes : list string := ["endpoints"].

(** [meta.UnsafeGuessKindToResource]: the plural and the singular resource
    guessed from the kind's name; an empty kind gives two zero values.
    There is no error result. *)
Definition UnsafeGuessKindToResource (kind : GroupVersionKind)
  : GroupVersionResource * GroupVersionResource :=
  let kindName := gvkKind kind in
  if (String.length kindName =? 0)%nat
  then (mkGroupVersionResource "" "" "", mkGroupVersionResource "" "" "")
  else
    let singularName := ToLower kindName in
    let WithResource := mkGroupVersionResource (gvkGroup kind) (gvkVersion kind) in
    let singular := WithResource singularName in
    if existsb (HasSuffix singularName) unpluralizedSuffixes
    then (singular, singular)
    else if HasSuffix singularName "s"
    then (WithResource (singularName ++ "es"), singular)
    else if HasSuffix singularName "y"
    then (WithResource
            (substring 0 (String.length singularName - 1) singularName ++ "ies"),
          singular)
    else (WithResource (singularName ++ "s"), singular).

End meta.

(** ** [cmd/apiserver_receive_adapter]: the process *)

Module cmd.

Import schema.

Definition component : string := "apiserversource".

Record envConfig : Type := mkEnvConfig {
  Namespace : string;
  Mode : string;
  SinkURI : string;
  ApiVersion : list string;
  Kind : list string;
  Controller : list bool;
  ApiServerImporter : string;
  MetricsConfigBase64 : string;
  LoggingConfigBase64 : string
}.

(** [apiserver.GVRC] and [apiserver.Options], as [main] fills them. *)
Record GVRC : Type := mkGVRC {
  GVR : GroupVersionResource;
  GVRC_Controller : bool
}.

Record Options : Type := mkOptions {
  Options_Namespace : string;
  Options_Mode : string;
  GVRCs : list GVRC
}.

(** What the collaborators of [main] return in one run of the process:
    flag and environment parsing, logging, the metrics exporter, the
    cluster clients, tracing, and the adapter's [Start]. *)
Record externals : Type := mkExternals {
  flagParse : option error;
  envconfigProcess : error + envConfig;
  Base64ToLoggingConfig : option error;
  NewConfigFromMap : option error;
  (** the pointer (nil or not) and the error *)
  Base64ToMetricsOptions : option unit * option error;
  UpdateExporter : option error;
  (** the host of the configuration *)
  BuildConfigFromFlags : error + string;
  NewForConfig : option error;
  SetupStaticPublishing : option error;
  NewDefaultClient : option error;
  (** [a.Start(stopCh)] for the adapter made from the host, the options
      and the importer's name *)
  Start : string → Options → string → option error
}.

(** How the process ends: [main] returns (status 0), a panic reaches the
    top of the goroutine (status 2), or [os.Exit] is called, by
    [flag.Parse] or by the logger's [Fatal] methods. *)
Inductive exit : Type :=
  | Returned
  | Panic (v : string)
  | Exit (code : Z).

Definition exitStatus (e : exit) : Z :=
  match e with
  | Returned => 0
  | Panic _ => 2
  | Exit code => code
  end.

(** What the process does that can be seen from outside, in order.  A log
    event holds the message of the line; the fields of a structured line
    (the error, and the environment in the line before [Start]) are not
    part of it. *)
Inductive event : Type :=
  | Printf (msg : string)
  | LogInfo (msg : string)
  | LogWarn (msg : string)
  | LogError (msg : string)
  | LogFatal (msg : string)
  | NewAdaptor (host : string) (opt : Options) (importer : string)
  | StartReturned (err : option error)
  | Flush.

(** A step of [main]: the events so far, and either the way the process
    ended or a value to go on with. *)
Definition P (A : Type) : Type := list event * (exit + A).

Definition pret {A : Type} (a : A) : P A := ([], inr a).

Definition pbind {A B : Type} (m : P A) (f : A → P B) : P B :=
  match m with
  | (l, inl e) => (l, inl e)
  | (l, inr a) => let '(l', r) := f a in ((l ++ l')%list, r)
  end.

Definition emit (e : event) : P unit := ([e], inr tt).

Definition panic {A : Type} (v : string) : P A := ([], inl (Panic v)).

(** [logger.Fatalw] and [logger.Fatalf]: the line is logged and the
    process exits with status 1; deferred calls do not run. *)
Definition Fatal {A : Type} (msg : string) : P A :=
  ([LogFatal msg], inl (Exit 1)).

Declare Scope proc_scope.
Delimit Scope proc_scope with proc.
Notation "'do' x '<-' c1 ';' c2" := (pbind c1 (fun x => c2))
  (at level 10, x name, c1 at level 100, c2 at level 200) : proc_scope.
Local Open Scope proc_scope.

(** [s[i]] on a slice: out of range panics. *)
Definition index {A : Type} (s : list A) (i : nat) : P A :=
  match s !! i with
  | Some a => pret a
  | None => panic "runtime error: index out of range"
  end.

(** The loop over [env.ApiVersion] that builds the list of [GVRC]; [i] is
    the index of the first of [apiVersions], [gvrcs] the list so far. *)
Fixpoint buildGVRCs (env : envConfig) (i : nat) (apiVersions : list string)
    (gvrcs : list GVRC) : P (list GVRC) :=
  match apiVersions with
  | [] => pret gvrcs
  | apiVersion :: rest =>
      do kind <- index (Kind env) i;
      do controlled <- index (Controller env) i;
      do gv <- match ParseGroupVersion apiVersion with
               | inl err => Fatal "Error parsing APIVersion"
               | inr gv => pret gv
               end;
      let gvr := fst (meta.UnsafeGuessKindToResource
                        (mkGroupVersionKind (Group gv) (Version gv) kind)) in
      buildGVRCs env (S i) rest (gvrcs ++ [mkGVRC gvr controlled])%list
  end.

(** [main] up to the point where [flush] is deferred. *)
Definition setup (X : externals) : P envConfig :=
  do _ <- match flagParse X with
          | Some _ => (([], inl (Exit 2)) : P unit)
          | None => pret tt
          end;
  do env <- match envconfigProcess X with
            | inl err => panic "Error processing env var"
            | inr env => pret env
            end;
  do _ <- match Base64ToLoggingConfig X with
          | Some err =>
              do _ <- emit (Printf "[ERROR] filed to process logging config");
              match NewConfigFromMap X with
              | Some err => panic "NewConfigFromMap"
              | None => pret tt
              end
          | None => pret tt
          end;
  pret env.

(** [main] from there on; [L] holds the label constants of the reporter. *)
Definition run (L : metricskey.Labels) (X : externals) (env : envConfig) : P unit :=
  let '(metricsConfig, err) := Base64ToMetricsOptions X in
  do _ <- match err with
          | Some _ => emit (LogError "failed to process metrics options")
          | None => pret tt
          end;
  do _ <- match metricsConfig with
          | None => panic "runtime error: invalid memory address or nil pointer dereference"
          | Some _ => pret tt
          end;
  do _ <- match UpdateExporter X with
          | Some _ => Fatal "Failed to create the metrics exporter"
          | None => pret tt
          end;
  do reporter <- match fst (apiserver.NewStatsReporter L view.newWorker) with
                 | inl _ => Fatal "Error building statsreporter"
                 | inr r => pret r
                 end;
  do host <- match BuildConfigFromFlags X with
             | inl _ => Fatal "Error building kubeconfig"
             | inr host => pret host
             end;
  do _ <- emit (LogInfo "Starting the controller");
  do _ <- match NewForConfig X with
          | Some _ => Fatal "Error building dynamic client"
          | None => pret tt
          end;
  do _ <- match SetupStaticPublishing X with
          | Some _ => emit (LogError "Error setting up trace publishing")
          | None => pret tt
          end;
  do _ <- match NewDefaultClient X with
          | Some _ => Fatal "Error building cloud event client"
          | None => pret tt
          end;
  do gvrcs <- buildGVRCs env 0 (ApiVersion env) [];
  let opt := mkOptions (Namespace env) (Mode env) gvrcs in
  do _ <- emit (NewAdaptor host opt (ApiServerImporter env));
  do _ <- emit (LogInfo "starting kubernetes api adapter.");
  let err := Start X host opt (ApiServerImporter env) in
  do _ <- emit (StartReturned err);
  match err with
  | Some _ => emit (LogWarn "start returned an error,")
  | None => pret tt
  end.

(** The deferred [flush] runs when [main] returns and when it panics, not
    when the process exits through [os.Exit]. *)
Definition deferred (m : P unit) : list event * exit :=
  match m with
  | (l, inr _) => ((l ++ [Flush])%list, Returned)
  | (l, inl (Panic v)) => ((l ++ [Flush])%list, Panic v)
  | (l, inl e) => (l, e)
  end.

Definition main (L : metricskey.Labels) (X : externals) : list event * exit :=
  match setup X with
  | (l, inl e) => (l, e)
  | (l, inr env) => let '(l', e) := deferred (run L X env) in ((l ++ l')%list, e)
  end.

Definition isNewAdaptor (e : event) : bool :=
  match e with
  | NewAdaptor _ _ _ => true
  | _ => false
  end.

(** Whether the adapter, and with it any watch on a resource, was made. *)
Definition adaptorCreated (tr : list event) : bool := existsb isNewAdaptor tr.

End cmd.

(** ** [pkg/broker/ingress]: the stats reporter

    Only the reporter's test is among the sources; the reporter is
    modelled from the specification's description of it and from what the
    test calls and expects. *)

Module http.

Definition StatusAccepted : Z := 202.

End http.

Module time.

(** [time.Duration] counts nanoseconds. *)
Definition Duration : Type := Z.
Definition Millisecond : Duration := 1000000.

End time.

Module strconv.

(** [strconv.Itoa]: the decimal form of an integer. *)
Definition Itoa (i : Z) : string := NilZero.string_of_int (Z.to_int i).

End strconv.

Module ingress.

Import metricskey.
Local Open Scope go_scope.

(** Modelled from the spec: the measure behind the exported event counter
    [event_count] of the ingress reporter, whose file is not among the
    sources. *)
Definition eventCountM : stats.Measure :=
  stats.Int64 "event_count" "Number of events received by a Broker"
              stats.UnitDimensionless.

(** Modelled from the spec: the measure behind the exported latency
    distribution [event_dispatch_latencies], in milliseconds. *)
Definition dispatchTimeInMsecM : stats.Measure :=
  stats.mkMeasure "event_dispatch_latencies"
                  "The time spent dispatching an event to a Channel"
                  stats.UnitMilliseconds.

(** Modelled from the spec: the ingress reporter's [ReportArgs], with the
    fields its test sets. *)
Record ReportArgs : Type := mkReportArgs {
  ns : string;
  broker : string;
  eventType : string;
  eventSource : string
}.

(** Modelled from the spec: the ingress [reporter], holding one tag key
    for each tag of the two views: namespace, broker, event type, event
    source, response code, response code class. *)
Record reporter : Type := mkReporter {
  namespaceTagKey : tag.Key;
  brokerTagKey : tag.Key;
  eventTypeTagKey : tag.Key;
  eventSourceTagKey : tag.Key;
  responseCodeKey : tag.Key;
  responseCodeClassKey : tag.Key
}.

(** Modelled from the spec: the keys of the two views, in the order the
    specification lists the tags. *)
Definition tagKeys (r : reporter) : list tag.Key :=
  [namespaceTagKey r; brokerTagKey r; eventTypeTagKey r; eventSourceTagKey r;
   responseCodeKey r; responseCodeClassKey r].

(** Modelled from the spec: the class of a status code, such as "2xx" or
    "5xx" ([metrics.ResponseCodeClass]). *)
Definition ResponseCodeClass (responseCode : Z) : string :=
  strconv.Itoa (responseCode ÷ 100) ++ "xx".

(** Modelled from the spec: the counter view of the ingress reporter,
    tagged by the six keys. *)
Definition eventCountView (r : reporter) : view.View :=
  view.mkView "" (stats.Description eventCountM) eventCountM view.Count
              (tagKeys r).

(** Modelled from the spec: the latency view, a distribution over the
    same six keys; its bucket bounds are not given and are a parameter. *)
Definition dispatchTimeView (r : reporter) (bounds : list Z) : view.View :=
  view.mkView "" (stats.Description dispatchTimeInMsecM) dispatchTimeInMsecM
              (view.Distribution bounds) (tagKeys r).

(** Modelled from the spec: the ingress [NewStatsReporter], which makes
    the tag keys and registers the two views. *)
Definition NewStatsReporter (L : Labels) (bounds : list Z) : M reporter :=
  let* nsTag := lift (tag.NewKey (LabelNamespaceName L)) in
  let* brokerTag := lift (tag.NewKey (LabelBrokerName L)) in
  let* eventTypeTag := lift (tag.NewKey (LabelEventType L)) in
  let* eventSourceTag := lift (tag.NewKey (LabelEventSource L)) in
  let* responseCodeTag := lift (tag.NewKey (LabelResponseCode L)) in
  let* responseCodeClassTag := lift (tag.NewKey (LabelResponseCodeClass L)) in
  let r := mkReporter nsTag brokerTag eventTypeTag eventSourceTag
                      responseCodeTag responseCodeClassTag in
  let* _ := Register (eventCountView r) in
  let* _ := Register (dispatchTimeView r bounds) in
  ret r.

(** Modelled from the spec: the tags of an observation, those of the
    arguments and the numeric status code and its class. *)
Definition generateTag (r : reporter) (args : ReportArgs) (responseCode : Z)
  : error + tag.Map :=
  tag.New
    [tag.Insert (namespaceTagKey r) (ns args);
     tag.Insert (brokerTagKey r) (broker args);
     tag.Insert (eventTypeTagKey r) (eventType args);
     tag.Insert (eventSourceTagKey r) (eventSource args);
     tag.Insert (responseCodeKey r) (strconv.Itoa responseCode);
     tag.Insert (responseCodeClassKey r) (ResponseCodeClass responseCode)].

(** Modelled from the spec: the ingress [ReportEventCount(args,
    responseCode)] increments the counter view under the tags. *)
Definition ReportEventCount (r : reporter) (args : ReportArgs)
    (responseCode : Z) : M unit :=
  let* ctx := lift (generateTag r args responseCode) in
  Record_ ctx (stats.M eventCountM 1).

(** Modelled from the spec: the ingress [ReportEventDispatchTime(args,
    responseCode, d)] records the duration, in milliseconds, into the
    distribution view under the same tags. *)
Definition ReportEventDispatchTime (r : reporter) (args : ReportArgs)
    (responseCode : Z) (d : time.Duration) : M unit :=
  let* ctx := lift (generateTag r args responseCode) in
  Record_ ctx (stats.M dispatchTimeInMsecM (d ÷ time.Millisecond)).

(** The [unregister] of the ingress test. *)
Definition unregister : view.worker → view.worker :=
  Unregister ["event_count"; "event_dispatch_latencies"].

End ingress.

(** * Properties *)

(** ** Vocabulary of the statements *)

(** The tag values of the apiserver [ReportArgs] are all accepted by
    [tag.Insert]. *)
Definition validArgs (args : apiserver.ReportArgs) : bool :=
  tag.checkValue (apiserver.ns args)
  && tag.checkValue (apiserver.eventSource args)
  && tag.checkValue (apiserver.eventType args)
  && tag.checkValue (apiserver.apiServerImporter args).

(** The tag map [generateTag] builds from the arguments, before its last
    mutator. *)
Definition argTags (r : apiserver.reporter) (args : apiserver.ReportArgs)
  : gmap string string :=
  tag.insert (apiserver.importerNameTagKey r) (apiserver.apiServerImporter args)
    (tag.insert (apiserver.eventTypeTagKey r) (apiserver.eventType args)
       (tag.insert (apiserver.eventSourceTagKey r) (apiserver.eventSource args)
          (tag.insert (apiserver.namespaceTagKey r) (apiserver.ns args) ∅))).

(** The tags of the context [ReportEventCount] records with. *)
Definition recordedTags (r : apiserver.reporter) (args : apiserver.ReportArgs)
  : gmap string string :=
  tag.insert (apiserver.importerResourceGroupTagKey r)
             apiserver.importerResourceGroupValue (argTags r args).

(** The six keys of an apiserver reporter are six different keys. *)
Definition distinctKeys (r : apiserver.reporter) : bool :=
  bool_decide (NoDup [apiserver.namespaceTagKey r; apiserver.eventSourceTagKey r;
                      apiserver.eventTypeTagKey r; apiserver.importerNameTagKey r;
                      apiserver.importerResourceGroupTagKey r;
                      apiserver.resultKey r]).

(** The signature of the arguments in the apiserver's [event_count] view. *)
Definition eventCountSignature (args : apiserver.ReportArgs) : list string :=
  [apiserver.ns args; apiserver.eventSource args; apiserver.eventType args;
   apiserver.apiServerImporter args; apiserver.importerResourceGroupValue].

(** The apiserver's [event_count] view is the registered view of that
    name. *)
Definition eventCountRegistered (r : apiserver.reporter) (w : view.worker) : Prop :=
  view.Find "event_count" w = Some (view.canonicalize (apiserver.eventCountView r)).

(** The label constants the apiserver reporter uses are accepted as key
    names. *)
Definition apiserverLabelsValid (L : metricskey.Labels) : bool :=
  tag.checkKeyName (metricskey.LabelNamespaceName L)
  && tag.checkKeyName (metricskey.LabelEventType L)
  && tag.checkKeyName (metricskey.LabelEventSource L)
  && tag.checkKeyName (metricskey.LabelImporterName L)
  && tag.checkKeyName (metricskey.LabelImporterResourceGroup L)
  && tag.checkKeyName (metricskey.Result L).

(** The reporter [NewStatsReporter] returns for the label constants. *)
Definition reporterOf (L : metricskey.Labels) : apiserver.reporter :=
  apiserver.mkReporter
    (metricskey.LabelNamespaceName L) (metricskey.LabelEventType L)
    (metricskey.LabelEventSource L) (metricskey.LabelImporterName L)
    (metricskey.LabelImporterResourceGroup L) (metricskey.Result L).

(** The worker of a process after its first [NewStatsReporter]. *)
Definition freshWorker : view.worker :=
  (apiserver.NewStatsReporter metricskey.knative view.newWorker).2.

(** The arguments of [TestStatsReporter] and of
    [TestReporterEmptySourceAndType]. *)
Definition testArgs : apiserver.ReportArgs :=
  apiserver.mkReportArgs "testns" "dev.knative.apiserver.ref.delete" "unit-test" "".

Definition emptyArgs : apiserver.ReportArgs :=
  apiserver.mkReportArgs "testns" "" "" "".

(** A descriptor is resolved when its API version parses and the guess
    made from its kind names a resource. *)
Definition resolves (apiVersion kind : string) : bool :=
  match schema.ParseGroupVersion apiVersion with
  | inl _ => false
  | inr gv =>
      negb (String.eqb
              (schema.gvrResource
                 (meta.UnsafeGuessKindToResource
                    (schema.mkGroupVersionKind (schema.Group gv)
                       (schema.Version gv) kind)).1)
              "")
  end.

Definition parses (apiVersion : string) : bool :=
  match schema.ParseGroupVersion apiVersion with
  | inl _ => false
  | inr _ => true
  end.

(** A run in which every collaborator succeeds, for the three lists of the
    environment and the result of the adapter's [Start]. *)
Definition exampleEnv (apiVersion kind : list string) (controller : list bool)
  : cmd.envConfig :=
  cmd.mkEnvConfig "default" "Ref" "http://sink.default.svc.cluster.local"
                  apiVersion kind controller "importer" "e30=" "e30=".

Definition exampleRun (apiVersion kind : list string) (controller : list bool)
    (start : option error) : cmd.externals :=
  cmd.mkExternals None (inr (exampleEnv apiVersion kind controller)) None None
                  (Some tt, None) None (inr "https://10.0.0.1") None None None
                  (fun _ _ _ => start).

(** A Go [int], of 64 bits. *)
Definition isInt (z : Z) : bool := (- 2 ^ 63 <=? z) && (z <? 2 ^ 63).

(** The tag values of the ingress [ReportArgs] are all accepted by
    [tag.Insert]. *)
Definition ingressValidArgs (args : ingress.ReportArgs) : bool :=
  tag.checkValue (ingress.ns args) && tag.checkValue (ingress.broker args)
  && tag.checkValue (ingress.eventType args)
  && tag.checkValue (ingress.eventSource args).

(** The six keys of an ingress reporter are six different keys. *)
Definition ingressDistinctKeys (r : ingress.reporter) : bool :=
  bool_decide (NoDup (ingress.tagKeys r)).

(** The tag map the ingress [generateTag] builds. *)
Definition ingressTags (r : ingress.reporter) (args : ingress.ReportArgs)
    (responseCode : Z) : gmap string string :=
  tag.insert (ingress.responseCodeClassKey r) (ingress.ResponseCodeClass responseCode)
    (tag.insert (ingress.responseCodeKey r) (strconv.Itoa responseCode)
       (tag.insert (ingress.eventSourceTagKey r) (ingress.eventSource args)
          (tag.insert (ingress.eventTypeTagKey r) (ingress.eventType args)
             (tag.insert (ingress.brokerTagKey r) (ingress.broker args)
                (tag.insert (ingress.namespaceTagKey r) (ingress.ns args) ∅))))).

(** The signature of the arguments and the status code in the two ingress
    views. *)
Definition ingressSignature (args : ingress.ReportArgs) (responseCode : Z)
  : list string :=
  [ingress.ns args; ingress.broker args; ingress.eventType args;
   ingress.eventSource args; strconv.Itoa responseCode;
   ingress.ResponseCodeClass responseCode].

(** The arguments of the ingress [TestStatsReporter], and the worker
    after its [NewStatsReporter]. *)
Definition ingressTestArgs : ingress.ReportArgs :=
  ingress.mkReportArgs "testns" "testbroker" "testeventtype" "testeventsource".

Definition ingressReporter : ingress.reporter :=
  ingress.mkReporter "namespace_name" "broker_name" "event_type" "event_source"
                     "response_code" "response_code_class".

Definition ingressWorker : view.worker :=
  (ingress.NewStatsReporter metricskey.knative [] view.newWorker).2.

(** Arguments with a namespace that holds a line feed, a character no tag
    value may have. *)
Definition lineFeedArgs : apiserver.ReportArgs :=
  apiserver.mkReportArgs (String (ascii_of_nat 10) "ns") "type" "source" "importer".

(** The label constants with the namespace label left empty. *)
Definition emptyNamespaceLabel : metricskey.Labels :=
  metricskey.mkLabels "" "event_type" "event_source" "importer_name"
                      "importer_resource_group" "broker_name" "result"
                      "response_code" "response_code_class" "any".

(** The four keys [generateTag] inserts the arguments under. *)
Definition argKeys (r : apiserver.reporter) : list tag.Key :=
  [apiserver.namespaceTagKey r; apiserver.eventSourceTagKey r;
   apiserver.eventTypeTagKey r; apiserver.importerNameTagKey r].

(** A run that differs only in what the set-up of tracing returns. *)
Definition withTracing (X : cmd.externals) (r : option error) : cmd.externals :=
  cmd.mkExternals (cmd.flagParse X) (cmd.envconfigProcess X)
    (cmd.Base64ToLoggingConfig X) (cmd.NewConfigFromMap X)
    (cmd.Base64ToMetricsOptions X) (cmd.UpdateExporter X)
    (cmd.BuildConfigFromFlags X) (cmd.NewForConfig X) r
    (cmd.NewDefaultClient X) (cmd.Start X).

(** A run that differs only in the environment it is given. *)
Definition withEnv (X : cmd.externals) (env : cmd.envConfig) : cmd.externals :=
  cmd.mkExternals (cmd.flagParse X) (inr env)
    (cmd.Base64ToLoggingConfig X) (cmd.NewConfigFromMap X)
    (cmd.Base64ToMetricsOptions X) (cmd.UpdateExporter X)
    (cmd.BuildConfigFromFlags X) (cmd.NewForConfig X)
    (cmd.SetupStaticPublishing X) (cmd.NewDefaultClient X) (cmd.Start X).

(** An environment with other lists of kinds and of controller flags. *)
Definition withKinds (env : cmd.envConfig) (kind : list string)
    (controller : list bool) : cmd.envConfig :=
  cmd.mkEnvConfig (cmd.Namespace env) (cmd.Mode env) (cmd.SinkURI env)
    (cmd.ApiVersion env) kind controller (cmd.ApiServerImporter env)
    (cmd.MetricsConfigBase64 env) (cmd.LoggingConfigBase64 env).

(** The [GVRC] the loop of [main] makes of an API version that parses, a
    kind and a controller flag. *)
Definition gvrcOf (gv : schema.GroupVersion) (kind : string) (controlled : bool)
  : cmd.GVRC :=
  cmd.mkGVRC
    (meta.UnsafeGuessKindToResource
       (schema.mkGroupVersionKind (schema.Group gv) (schema.Version gv) kind)).1
    controlled.

Definition isTraceError (e : cmd.event) : bool :=
  match e with
  | cmd.LogError "Error setting up trace publishing" => true
  | _ => false
  end.

(** A run that differs only in what the decoding of the logging
    configuration returns. *)
Definition withLoggingConfig (X : cmd.externals) (r : option error)
  : cmd.externals :=
  cmd.mkExternals (cmd.flagParse X) (cmd.envconfigProcess X) r
    (cmd.NewConfigFromMap X)
    (cmd.Base64ToMetricsOptions X) (cmd.UpdateExporter X)
    (cmd.BuildConfigFromFlags X) (cmd.NewForConfig X)
    (cmd.SetupStaticPublishing X) (cmd.NewDefaultClient X) (cmd.Start X).

Definition isPrintf (e : cmd.event) : bool :=
  match e with
  | cmd.Printf _ => true
  | _ => false
  end.

(** The events that concern the adapter: its making and its start. *)
Definition isAdaptorEvent (e : cmd.event) : bool :=
  match e with
  | cmd.NewAdaptor _ _ _ | cmd.StartReturned _ => true
  | _ => false
  end.

(** ** The tag maps *)

Section tag_facts.

Implicit Types (k : tag.Key) (v : string) (m : gmap string string).

Lemma lookup_tag_insert k k' v m :
  tag.insert k v m !! k' =
  if decide (k = k') then Some (default v (m !! k)) else m !! k'.
Proof.
  unfold tag.insert. destruct (m !! k) as [x|] eqn:E.
  - case_decide; subst; simpl; congruence.
  - rewrite lookup_insert. case_decide; subst; simpl; done.
Qed.

Lemma lookup_tag_insert_ne k k' v m :
  k ≠ k' → tag.insert k v m !! k' = m !! k'.
Proof. intros H. rewrite lookup_tag_insert. by case_decide. Qed.

Lemma lookup_tag_insert_fresh k v m :
  m !! k = None → tag.insert k v m !! k = Some v.
Proof. intros H. rewrite lookup_tag_insert, H. by case_decide. Qed.

Lemma lookup_tag_insert_old k v x m :
  m !! k = Some x → tag.insert k v m !! k = Some x.
Proof. intros H. rewrite lookup_tag_insert, H. by case_decide. Qed.

End tag_facts.

(** ** The view worker *)

Section view_facts.

Implicit Types (w : view.worker) (m : gmap string string)
  (ms : stats.Measurement) (name : string) (sig : list string).

Lemma count_newData a : view.count (view.newData a) = 0.
Proof. by destruct a. Qed.

Lemma count_addSample d v : view.count (view.addSample d v) = view.count d + 1.
Proof.
  destruct d as [n|l]; simpl; [done|].
  rewrite length_app. simpl. lia.
Qed.

Lemma views_Record name m ms w :
  view.views (view.Record_ m ms w) !! name =
  (fun vi =>
     if String.eqb (stats.Name (view.Measure (view.view_ vi)))
                   (stats.Name (stats.measure ms))
     then view.addSampleTo m (stats.value ms) vi
     else vi) <$> view.views w !! name.
Proof. unfold view.Record_. simpl. by rewrite lookup_fmap. Qed.

(** Recording changes no view's definition. *)
Lemma Find_Record name m ms w :
  view.Find name (view.Record_ m ms w) = view.Find name w.
Proof.
  unfold view.Find. rewrite views_Record.
  destruct (view.views w !! name) as [vi|]; simpl; [|done].
  by destruct (String.eqb _ _).
Qed.

Lemma recorded_Record m ms w :
  view.recorded (view.Record_ m ms w) = view.mkObservation m ms :: view.recorded w.
Proof. done. Qed.

(** A view of the measure takes the sample in the row of the tags'
    signature, and in no other row. *)
Lemma row_Record name v m ms w sig :
  view.Find name w = Some v →
  stats.Name (view.Measure v) = stats.Name (stats.measure ms) →
  view.row name sig (view.Record_ m ms w) =
  if decide (view.encodeWithKeys m (view.TagKeys v) = sig)
  then Some (view.addSample
               (default (view.newData (view.Aggregation_ v)) (view.row name sig w))
               (stats.value ms))
  else view.row name sig w.
Proof.
  unfold view.Find, view.row. rewrite views_Record.
  destruct (view.views w !! name) as [vi|]; simpl; [|done].
  intros [= <-] ->. rewrite String.eqb_refl. unfold view.addSampleTo. simpl.
  rewrite lookup_insert. case_decide as E; [|done]. by rewrite E.
Qed.

Lemma countOf_Record name v m ms w sig :
  view.Find name w = Some v →
  stats.Name (view.Measure v) = stats.Name (stats.measure ms) →
  view.countOf name sig (view.Record_ m ms w) =
  view.countOf name sig w
  + (if decide (view.encodeWithKeys m (view.TagKeys v) = sig) then 1 else 0).
Proof.
  intros Hf Hm. unfold view.countOf. rewrite (row_Record _ _ _ _ _ _ Hf Hm).
  case_decide; [|lia]. simpl. rewrite count_addSample.
  destruct (view.row name sig w); simpl; [done|]. by rewrite count_newData.
Qed.

End view_facts.

(** ** The apiserver reporter *)

Section apiserver_facts.

Import apiserver.

Implicit Types (r : reporter) (args : ReportArgs) (err : option error)
  (w : view.worker).

Lemma distinctKeys_NoDup r :
  distinctKeys r = true →
  NoDup [namespaceTagKey r; eventSourceTagKey r; eventTypeTagKey r;
         importerNameTagKey r; importerResourceGroupTagKey r; resultKey r].
Proof. unfold distinctKeys. apply bool_decide_eq_true_1. Qed.

Ltac split_keys H :=
  apply distinctKeys_NoDup in H;
  repeat match type of H with
         | NoDup (_ :: _) => apply NoDup_cons in H as [? H]
         end;
  repeat match goal with
         | N : _ ∉ _ :: _ |- _ => apply not_elem_of_cons in N as [? N]
         end.

Ltac lookup_keys :=
  unfold argTags; rewrite ?lookup_tag_insert, ?lookup_empty;
  repeat case_decide; simpl; congruence.

Lemma argTags_namespace r args :
  argTags r args !! namespaceTagKey r = Some (ns args).
Proof. lookup_keys. Qed.

Lemma argTags_eventSource r args :
  distinctKeys r = true →
  argTags r args !! eventSourceTagKey r = Some (eventSource args).
Proof. intros H. split_keys H. lookup_keys. Qed.

Lemma argTags_eventType r args :
  distinctKeys r = true →
  argTags r args !! eventTypeTagKey r = Some (eventType args).
Proof. intros H. split_keys H. lookup_keys. Qed.

Lemma argTags_importerName r args :
  distinctKeys r = true →
  argTags r args !! importerNameTagKey r = Some (apiServerImporter args).
Proof. intros H. split_keys H. lookup_keys. Qed.

Lemma argTags_importerResourceGroup r args :
  distinctKeys r = true →
  argTags r args !! importerResourceGroupTagKey r = None.
Proof. intros H. split_keys H. lookup_keys. Qed.

Lemma argTags_result r args :
  distinctKeys r = true → argTags r args !! resultKey r = None.
Proof. intros H. split_keys H. lookup_keys. Qed.

Lemma generateTag_valid r args k v :
  validArgs args = true → tag.checkValue v = true →
  generateTag r args (tag.Insert k v) = inr (tag.insert k v (argTags r args)).
Proof.
  unfold validArgs. rewrite !andb_true_iff. intros [[[H1 H2] H3] H4] Hv.
  unfold generateTag, tag.New, tag.mutate, tag.Insert, argTags.
  by rewrite H1, H2, H3, H4, Hv.
Qed.

Lemma generateTag_invalid r args t :
  validArgs args = false → generateTag r args t = inl errInvalidValue.
Proof.
  unfold validArgs, generateTag, tag.New, tag.mutate, tag.Insert.
  destruct (tag.checkValue (ns args)); [|done].
  destruct (tag.checkValue (eventSource args)); [|done].
  destruct (tag.checkValue (eventType args)); [|done].
  destruct (tag.checkValue (apiServerImporter args)); [|done].
  done.
Qed.

(** What a call comes to: with valid tag values one observation of 1 on
    [eventCountM] under [recordedTags]; otherwise the error of
    [tag.Insert], and nothing recorded. *)
Lemma ReportEventCount_eq r args err w :
  ReportEventCount r args err w =
  if validArgs args
  then (inr tt, view.Record_ (recordedTags r args) (stats.M eventCountM 1) w)
  else (inl errInvalidValue, w).
Proof.
  unfold ReportEventCount, bind, lift, Record_, recordedTags.
  destruct (validArgs args) eqn:E.
  - rewrite !generateTag_valid; try done. by destruct err.
  - by rewrite generateTag_invalid.
Qed.

Lemma recordedTags_signature r args :
  distinctKeys r = true →
  view.encodeWithKeys (recordedTags r args)
    (view.TagKeys (view.canonicalize (eventCountView r)))
  = eventCountSignature args.
Proof.
  intros H. unfold eventCountSignature, recordedTags. simpl.
  pose proof (argTags_importerResourceGroup r args H) as Hrg.
  pose proof (argTags_eventSource r args H) as Hsrc.
  pose proof (argTags_eventType r args H) as Hty.
  pose proof (argTags_importerName r args H) as Himp.
  pose proof (argTags_namespace r args) as Hns.
  split_keys H.
  rewrite lookup_tag_insert_fresh by done.
  rewrite !lookup_tag_insert_ne by congruence.
  by rewrite Hns, Hsrc, Hty, Himp.
Qed.


Lemma ReportEventCount_registered r args err w :
  eventCountRegistered r w →
  eventCountRegistered r (ReportEventCount r args err w).2.
Proof.
  unfold eventCountRegistered. intros H. rewrite ReportEventCount_eq.
  destruct (validArgs args); simpl; [|done]. by rewrite Find_Record.
Qed.

Lemma countOf_ReportEventCount r args err w sig :
  validArgs args = true → distinctKeys r = true → eventCountRegistered r w →
  view.countOf "event_count" sig (ReportEventCount r args err w).2 =
  view.countOf "event_count" sig w
  + (if decide (eventCountSignature args = sig) then 1 else 0).
Proof.
  intros Hv Hd Hr. rewrite ReportEventCount_eq, Hv. simpl.
  rewrite (countOf_Record _ _ _ _ _ _ Hr) by done.
  by rewrite recordedTags_signature.
Qed.

(** [N] calls with the same valid arguments all succeed; the row of the
    arguments' signature counts [N] more, the other rows are as before. *)
Lemma ReportEventCount_times (N : nat) r args err w sig :
  validArgs args = true → distinctKeys r = true → eventCountRegistered r w →
  ∃ w', times N (ReportEventCount r args err) w = (inr tt, w')
        ∧ eventCountRegistered r w'
        ∧ view.countOf "event_count" sig w' =
          view.countOf "event_count" sig w
          + (if decide (eventCountSignature args = sig) then Z.of_nat N else 0).
Proof.
  intros Hv Hd. revert w. induction N as [|N IH]; intros w Hr.
  - exists w. simpl. repeat split; [done|]. case_decide; lia.
  - pose proof (ReportEventCount_registered r args err w Hr) as Hr1.
    pose proof (countOf_ReportEventCount r args err w sig Hv Hd Hr) as Hc.
    cbn [times]. unfold bind at 1.
    rewrite ReportEventCount_eq, Hv in *. simpl in Hr1, Hc.
    destruct (IH _ Hr1) as (w' & Ht & Hr' & Hc').
    exists w'. rewrite Ht. repeat split; [done|].
    rewrite Hc', Hc. case_decide; lia.
Qed.

(** C1 (the code drops the tag): a call that records anything records
    one observation of 1 on [eventCountM], and the tags of that observation
    hold no result tag: the context that carries it is overwritten before
    [Record], and the view's keys do not list the result key either. *)
Theorem ReportEventCount_result_tag_not_recorded r args err w :
  distinctKeys r = true →
  match ReportEventCount r args err w with
  | (inr _, w') =>
      ∃ o, view.recorded w' = o :: view.recorded w
           ∧ view.measurement o = stats.M eventCountM 1
           ∧ view.tags o !! resultKey r = None
           ∧ resultKey r ∉ view.TagKeys (eventCountView r)
  | (inl _, w') => w' = w
  end.
Proof.
  intros Hd. rewrite ReportEventCount_eq.
  destruct (validArgs args); [|done].
  eexists. rewrite recorded_Record. repeat split.
  - simpl. unfold recordedTags.
    pose proof (argTags_result r args Hd) as Hres. split_keys Hd.
    by rewrite lookup_tag_insert_ne.
  - simpl. split_keys Hd.
    rewrite !not_elem_of_cons. repeat split; try congruence.
Qed.

Lemma ReportEventCount_result_tag_not_recorded_witness :
  distinctKeys (reporterOf metricskey.knative) = true
  ∧ match ReportEventCount (reporterOf metricskey.knative) testArgs None
            (NewStatsReporter metricskey.knative view.newWorker).2 with
    | (inr _, w') =>
        ∃ o, view.recorded w' = [o]
             ∧ view.measurement o = stats.M eventCountM 1
             ∧ view.tags o !! "result" = None
             ∧ "result" ∉ view.TagKeys (eventCountView (reporterOf metricskey.knative))
    | (inl _, w') => False
    end.
Proof.
  split; [vm_compute; reflexivity|].
  pose proof (ReportEventCount_result_tag_not_recorded
                (reporterOf metricskey.knative) testArgs None
                (NewStatsReporter metricskey.knative view.newWorker).2
                ltac:(vm_compute; reflexivity)) as H.
  rewrite ReportEventCount_eq in *.
  change (validArgs testArgs) with true in *. cbv iota in *. exact H.
Defined.

(** C9: a call that records anything records one observation, and that
    observation carries the importer's resource group under the reporter's
    resource-group key, with the one constant as its value, whatever the
    arguments and the delivery error are. *)
Theorem ReportEventCount_resource_group_tag r args err w :
  distinctKeys r = true →
  match ReportEventCount r args err w with
  | (inr _, w') =>
      ∃ o, view.recorded w' = o :: view.recorded w
           ∧ view.tags o !! importerResourceGroupTagKey r
             = Some "apiserversources.sources.eventing.knative.dev"
  | (inl _, w') => view.recorded w' = view.recorded w
  end.
Proof.
  intros Hd. rewrite ReportEventCount_eq.
  destruct (validArgs args); [|done].
  eexists. rewrite recorded_Record. split; [done|]. simpl.
  unfold recordedTags. rewrite lookup_tag_insert_fresh; [done|].
  by apply argTags_importerResourceGroup.
Qed.

Lemma ReportEventCount_resource_group_tag_witness :
  distinctKeys (reporterOf metricskey.knative) = true
  ∧ match ReportEventCount (reporterOf metricskey.knative) testArgs
            (Some (errorString "connection refused"))
            (NewStatsReporter metricskey.knative view.newWorker).2 with
    | (inr _, w') =>
        ∃ o, view.recorded w' = [o]
             ∧ view.tags o !! "importer_resource_group"
               = Some "apiserversources.sources.eventing.knative.dev"
    | (inl _, w') => False
    end.
Proof.
  split; [vm_compute; reflexivity|].
  pose proof (ReportEventCount_resource_group_tag
                (reporterOf metricskey.knative) testArgs
                (Some (errorString "connection refused"))
                (NewStatsReporter metricskey.knative view.newWorker).2
                ltac:(vm_compute; reflexivity)) as H.
  rewrite ReportEventCount_eq in *.
  change (validArgs testArgs) with true in *. cbv iota in *. exact H.
Defined.

(** The event type and the event source are recorded as the arguments
    give them, the empty string included. *)
Lemma ReportEventCount_records_args_as_given r args err w :
  distinctKeys r = true → validArgs args = true →
  ∃ o, (ReportEventCount r args err w).1 = inr tt
       ∧ view.recorded (ReportEventCount r args err w).2 = o :: view.recorded w
       ∧ view.tags o !! eventTypeTagKey r = Some (eventType args)
       ∧ view.tags o !! eventSourceTagKey r = Some (eventSource args).
Proof.
  intros Hd Hv. rewrite ReportEventCount_eq, Hv. eexists.
  split; [done|]. split; [reflexivity|]. simpl.
  pose proof (argTags_eventType r args Hd) as Hty.
  pose proof (argTags_eventSource r args Hd) as Hsrc.
  unfold recordedTags. split_keys Hd.
  by rewrite !lookup_tag_insert_ne by congruence.
Qed.

(** C5 (the code drops the tag): the two calls of [TestStatsReporter], on
    a reporter just made, both succeed and leave the [event_count] view
    with one row of count 2; the row is tagged by namespace, event source,
    event type and resource group, and has no result tag, so no tag set
    with result=success has a count of 2. *)
Theorem TestStatsReporter_count_without_result_tag :
  (NewStatsReporter metricskey.knative view.newWorker).1
    = inr (reporterOf metricskey.knative)
  ∧ (times 2 (ReportEventCount (reporterOf metricskey.knative) testArgs None)
           freshWorker).1 = inr tt
  ∧ view.RetrieveData "event_count"
      (times 2 (ReportEventCount (reporterOf metricskey.knative) testArgs None)
             freshWorker).2
    = Some [view.mkRow
              {[ "namespace_name" := "testns";
                 "event_source" := "unit-test";
                 "event_type" := "dev.knative.apiserver.ref.delete";
                 "importer_resource_group"
                   := "apiserversources.sources.eventing.knative.dev" ]}
              (view.CountData 2)]
  ∧ ({[ "namespace_name" := "testns";
        "event_source" := "unit-test";
        "event_type" := "dev.knative.apiserver.ref.delete";
        "importer_resource_group"
          := "apiserversources.sources.eventing.knative.dev" ]}
       : gmap string string) !! "result" = None.
Proof. repeat split; vm_compute; reflexivity. Qed.

(** C10 (the code records the empty value): the four calls of
    [TestReporterEmptySourceAndType] succeed; the observations they record
    have the empty string as their event type and as their event source,
    and the one row of the view, of count 4, has neither tag. *)
Theorem TestReporterEmptySourceAndType_records_empty_values :
  (times 4 (ReportEventCount (reporterOf metricskey.knative) emptyArgs None)
         freshWorker).1 = inr tt
  ∧ map (fun o => (view.tags o !! "event_type", view.tags o !! "event_source"))
        (view.recorded
           (times 4 (ReportEventCount (reporterOf metricskey.knative) emptyArgs None)
                  freshWorker).2)
    = [(Some "", Some ""); (Some "", Some ""); (Some "", Some "");
       (Some "", Some "")]
  ∧ view.RetrieveData "event_count"
      (times 4 (ReportEventCount (reporterOf metricskey.knative) emptyArgs None)
             freshWorker).2
    = Some [view.mkRow
              {[ "namespace_name" := "testns";
                 "importer_resource_group"
                   := "apiserversources.sources.eventing.knative.dev" ]}
              (view.CountData 4)].
Proof. repeat split; vm_compute; reflexivity. Qed.

Lemma NewStatsReporter_eq L w :
  apiserverLabelsValid L = true →
  NewStatsReporter L w =
  match view.Register (eventCountView (reporterOf L)) w with
  | (Some e, w') => (inl e, w')
  | (None, w') => (inr (reporterOf L), w')
  end.
Proof.
  unfold apiserverLabelsValid. rewrite !andb_true_iff.
  intros [[[[[H1 H2] H3] H4] H5] H6].
  unfold NewStatsReporter, bind, lift, tag.NewKey, Register, ret.
  rewrite H1, H2, H3, H4, H5, H6. fold (reporterOf L).
  by destruct (view.Register _ _) as [[e|] w'].
Qed.

Lemma Register_eventCountView r w :
  view.Register (eventCountView r) w =
  match view.Find "event_count" w with
  | Some x =>
      if view.same x (view.canonicalize (eventCountView r)) then (None, w)
      else (Some (errDifferentView "event_count"), w)
  | None =>
      (None,
       view.mkWorker
         (<["event_count" :=
              view.mkViewInternal (view.canonicalize (eventCountView r)) ∅]>
            (view.views w))
         (view.recorded w))
  end.
Proof.
  unfold view.Register, view.Find. simpl.
  by destruct (view.views w !! "event_count").
Qed.

Lemma same_eventCountView r r' :
  view.same (view.canonicalize (eventCountView r))
            (view.canonicalize (eventCountView r')) = true.
Proof. reflexivity. Qed.

Lemma wf_newWorker : view.wf view.newWorker.
Proof. apply map_Forall_empty. Qed.

Lemma wf_Register v w : view.wf w → view.wf (view.Register v w).2.
Proof.
  unfold view.wf, view.Register. intros H.
  destruct (view.views w !! _) as [x|] eqn:E; simpl.
  - by destruct (view.same _ _).
  - by apply map_Forall_insert_2.
Qed.

Lemma wf_Record m ms w : view.wf w → view.wf (view.Record_ m ms w).
Proof.
  unfold view.wf. simpl. intros H n vi. rewrite lookup_fmap.
  destruct (view.views w !! n) as [x|] eqn:E; simpl; [|done].
  intros [= <-]. specialize (H n x E). simpl in H.
  by destruct (String.eqb _ _).
Qed.

Lemma Find_unregister w :
  view.wf w → view.Find "event_count" (unregister w) = None.
Proof.
  unfold unregister, Unregister, view.Find. intros H.
  destruct (view.views w !! "event_count") as [vi|] eqn:E; simpl.
  - rewrite (H _ _ E). by rewrite lookup_delete_eq.
  - by rewrite E.
Qed.

Lemma wf_unregister w : view.wf w → view.wf (unregister w).
Proof.
  unfold unregister, Unregister, view.Find, view.wf. intros H.
  destruct (view.views w !! "event_count") as [vi|] eqn:E; simpl; [|done].
  by apply map_Forall_delete.
Qed.

(** How [NewStatsReporter] meets the registered views: on a worker with
    no view named [event_count] the first call succeeds and registers the
    view, and a second call succeeds as well, changing nothing; wherever
    the reporter's own view is the registered one a further call is such a
    success; the call is an error only when a different view holds the
    name; and after [unregister] the call succeeds and registers the view
    anew, without rows. *)
Theorem NewStatsReporter_registration L w :
  apiserverLabelsValid L = true → view.wf w →
  (view.Find "event_count" w = None →
   ∃ w1, NewStatsReporter L w = (inr (reporterOf L), w1)
         ∧ eventCountRegistered (reporterOf L) w1
         ∧ NewStatsReporter L w1 = (inr (reporterOf L), w1))
  ∧ (eventCountRegistered (reporterOf L) w →
     NewStatsReporter L w = (inr (reporterOf L), w))
  ∧ (∀ x, view.Find "event_count" w = Some x →
          view.same x (view.canonicalize (eventCountView (reporterOf L))) = false →
          NewStatsReporter L w = (inl (errDifferentView "event_count"), w))
  ∧ (∃ w2, NewStatsReporter L (unregister w) = (inr (reporterOf L), w2)
           ∧ eventCountRegistered (reporterOf L) w2
           ∧ ∀ sig, view.row "event_count" sig w2 = None).
Proof.
  intros HL Hwf.
  assert (Hreg : ∀ w', eventCountRegistered (reporterOf L) w' →
                       NewStatsReporter L w' = (inr (reporterOf L), w')).
  { intros w' Hr. rewrite (NewStatsReporter_eq _ _ HL), Register_eventCountView.
    unfold eventCountRegistered in Hr. by rewrite Hr, same_eventCountView. }
  assert (Hnew : ∀ w', view.Find "event_count" w' = None →
            ∃ w1, NewStatsReporter L w' = (inr (reporterOf L), w1)
                  ∧ eventCountRegistered (reporterOf L) w1
                  ∧ ∀ sig, view.row "event_count" sig w1 = None).
  { intros w' Hf. eexists.
    rewrite (NewStatsReporter_eq _ _ HL), Register_eventCountView, Hf.
    split; [done|]. split.
    - unfold eventCountRegistered, view.Find. simpl.
      by rewrite lookup_insert_eq.
    - intros sig. unfold view.row. simpl. by rewrite lookup_insert_eq. }
  repeat split.
  - intros Hf. destruct (Hnew w Hf) as (w1 & H1 & H2 & _).
    exists w1. eauto.
  - apply Hreg.
  - intros x Hx Hs.
    by rewrite (NewStatsReporter_eq _ _ HL), Register_eventCountView, Hx, Hs.
  - apply Hnew. by apply Find_unregister.
Qed.

Lemma NewStatsReporter_registration_witness :
  apiserverLabelsValid metricskey.knative = true
  ∧ view.wf view.newWorker
  ∧ ∃ w1, NewStatsReporter metricskey.knative view.newWorker
            = (inr (reporterOf metricskey.knative), w1)
          ∧ NewStatsReporter metricskey.knative w1
            = (inr (reporterOf metricskey.knative), w1).
Proof.
  split; [vm_compute; reflexivity|]. split; [apply wf_newWorker|].
  destruct (NewStatsReporter_registration metricskey.knative view.newWorker
              ltac:(vm_compute; reflexivity) wf_newWorker) as (H & _).
  destruct (H eq_refl) as (w1 & H1 & _ & H2). by exists w1.
Defined.


(** ** Further properties of the apiserver reporter *)

Lemma argTags_other r args k :
  k ∉ argKeys r → argTags r args !! k = None.
Proof.
  unfold argKeys. rewrite !not_elem_of_cons. intros (H1 & H2 & H3 & H4 & _).
  unfold argTags. rewrite !lookup_tag_insert_ne by congruence.
  apply lookup_empty.
Qed.

(** X1: a call whose arguments hold a value that is no tag value (more
    than 255 bytes, or a byte outside the printable ASCII range) returns
    the error of [tag.Insert] and leaves the worker as it was: nothing is
    recorded and no count changes. *)
Theorem ReportEventCount_rejected_value r args err w :
  validArgs args = false →
  ReportEventCount r args err w = (inl errInvalidValue, w).
Proof. intros H. by rewrite ReportEventCount_eq, H. Qed.

Lemma ReportEventCount_rejected_value_witness :
  validArgs lineFeedArgs = false
  ∧ ReportEventCount (reporterOf metricskey.knative) lineFeedArgs None freshWorker
    = (inl errInvalidValue, freshWorker).
Proof.
  split; [reflexivity|].
  apply (ReportEventCount_rejected_value (reporterOf metricskey.knative)
           lineFeedArgs None freshWorker).
  reflexivity.
Defined.

(** X2: the delivery error passed to [ReportEventCount] has no effect on
    what the call returns or on the worker it leaves: a failed delivery is
    reported exactly like a successful one. *)
Theorem ReportEventCount_ignores_delivery_error r args err err' w :
  ReportEventCount r args err w = ReportEventCount r args err' w.
Proof. by rewrite !ReportEventCount_eq. Qed.

(** X3: [N] calls with the same arguments, of valid tag values, on a
    worker where the reporter's view is registered all succeed; they add
    [N] to the count of the row of the arguments' signature and leave the
    count of every other row as it was. *)
Theorem ReportEventCount_N_calls (N : nat) r args err w sig :
  validArgs args = true → distinctKeys r = true → eventCountRegistered r w →
  ∃ w', times N (ReportEventCount r args err) w = (inr tt, w')
        ∧ view.countOf "event_count" sig w' =
          view.countOf "event_count" sig w
          + (if decide (eventCountSignature args = sig) then Z.of_nat N else 0).
Proof.
  intros Hv Hd Hr.
  destruct (ReportEventCount_times N r args err w sig Hv Hd Hr)
    as (w' & Ht & _ & Hc).
  by exists w'.
Qed.

Lemma ReportEventCount_N_calls_witness :
  ∃ w', times 3 (ReportEventCount (reporterOf metricskey.knative) testArgs
                   (Some (errorString "connection refused")))
              freshWorker = (inr tt, w')
        ∧ view.countOf "event_count" (eventCountSignature testArgs) w' = 3.
Proof.
  destruct (ReportEventCount_N_calls 3 (reporterOf metricskey.knative) testArgs
              (Some (errorString "connection refused")) freshWorker
              (eventCountSignature testArgs))
    as (w' & Ht & Hc); [reflexivity | vm_compute; reflexivity | reflexivity |].
  exists w'. split; [exact Ht|].
  rewrite Hc. reflexivity.
Defined.

(** X4: [generateTag] puts the four tags of the arguments first, so the
    mutator it is given cannot replace them: whatever key and valid value
    the mutator inserts, the map holds the arguments' namespace, event
    source, event type and importer name under the reporter's keys, the
    mutator's value under its key only when that key is none of the four,
    and nothing else. *)
Theorem generateTag_argument_tags_first r args (k : tag.Key) (v : string) :
  distinctKeys r = true → validArgs args = true → tag.checkValue v = true →
  ∃ m : gmap string string,
    generateTag r args (tag.Insert k v) = inr m
    ∧ m !! namespaceTagKey r = Some (ns args)
    ∧ m !! eventSourceTagKey r = Some (eventSource args)
    ∧ m !! eventTypeTagKey r = Some (eventType args)
    ∧ m !! importerNameTagKey r = Some (apiServerImporter args)
    ∧ (k ∉ argKeys r → m !! k = Some v)
    ∧ (∀ k', k' ∉ argKeys r → k' ≠ k → m !! k' = None).
Proof.
  intros Hd Hv Hc. eexists. split; [by apply generateTag_valid|].
  pose proof (argTags_namespace r args) as Hns.
  pose proof (argTags_eventSource r args Hd) as Hsrc.
  pose proof (argTags_eventType r args Hd) as Hty.
  pose proof (argTags_importerName r args Hd) as Himp.
  repeat split.
  - rewrite lookup_tag_insert. case_decide; subst; by rewrite ?Hns.
  - rewrite lookup_tag_insert. case_decide; subst; by rewrite ?Hsrc.
  - rewrite lookup_tag_insert. case_decide; subst; by rewrite ?Hty.
  - rewrite lookup_tag_insert. case_decide; subst; by rewrite ?Himp.
  - intros Hk. rewrite lookup_tag_insert_fresh; [done|].
    by apply argTags_other.
  - intros k' Hk' Hne. rewrite lookup_tag_insert_ne by done.
    by apply argTags_other.
Qed.

Lemma generateTag_argument_tags_first_witness :
  ∃ m : gmap string string,
    generateTag (reporterOf metricskey.knative) testArgs
      (tag.Insert "namespace_name" "other") = inr m
    ∧ m !! "namespace_name" = Some "testns"
    ∧ m !! "event_source" = Some "unit-test"
    ∧ m !! "event_type" = Some "dev.knative.apiserver.ref.delete"
    ∧ m !! "importer_name" = Some "".
Proof.
  destruct (generateTag_argument_tags_first (reporterOf metricskey.knative)
              testArgs "namespace_name" "other")
    as (m & H & H1 & H2 & H3 & H4 & _);
    [vm_compute; reflexivity | reflexivity | reflexivity |].
  exists m. auto.
Defined.

Lemma wf_ReportEventCount r args err w :
  view.wf w → view.wf (ReportEventCount r args err w).2.
Proof.
  rewrite ReportEventCount_eq. destruct (validArgs args); simpl; [|done].
  apply wf_Record.
Qed.

Lemma wf_freshWorker : view.wf freshWorker.
Proof. apply (wf_Register _ view.newWorker), wf_newWorker. Qed.

(** X5: no call of [ReportEventCount] registers, unregisters or redefines
    a view: every name finds the same view after the call as before it,
    and the worker keeps its views under their own names. *)
Theorem ReportEventCount_keeps_views r args err w (name : string) :
  view.Find name (ReportEventCount r args err w).2 = view.Find name w
  ∧ (view.wf w → view.wf (ReportEventCount r args err w).2).
Proof.
  split; [|apply wf_ReportEventCount].
  rewrite ReportEventCount_eq. destruct (validArgs args); simpl; [|done].
  apply Find_Record.
Qed.

Lemma ReportEventCount_keeps_views_witness :
  view.Find "event_count"
    (ReportEventCount (reporterOf metricskey.knative) testArgs None freshWorker).2
  = view.Find "event_count" freshWorker
  ∧ view.wf (ReportEventCount (reporterOf metricskey.knative) testArgs None
               freshWorker).2.
Proof.
  destruct (ReportEventCount_keeps_views (reporterOf metricskey.knative)
              testArgs None freshWorker "event_count") as [H1 H2].
  split; [exact H1|]. apply H2, wf_freshWorker.
Defined.

Lemma NewStatsReporter_key_error L w :
  apiserverLabelsValid L = false →
  NewStatsReporter L w = (inl errInvalidKeyName, w).
Proof.
  unfold apiserverLabelsValid, NewStatsReporter, bind, lift, tag.NewKey.
  destruct (tag.checkKeyName (metricskey.LabelNamespaceName L)); [|done].
  destruct (tag.checkKeyName (metricskey.LabelEventType L)); [|done].
  destruct (tag.checkKeyName (metricskey.LabelEventSource L)); [|done].
  destruct (tag.checkKeyName (metricskey.LabelImporterName L)); [|done].
  destruct (tag.checkKeyName (metricskey.LabelImporterResourceGroup L)); [|done].
  destruct (tag.checkKeyName (metricskey.Result L)); done.
Qed.

(** X6: when one of the six label constants is no key name (empty, more
    than 255 bytes, or with a byte outside the printable ASCII range),
    [NewStatsReporter] returns the error of [tag.NewKey] and registers no
    view: the worker is as it was. *)
Theorem NewStatsReporter_invalid_label L w :
  apiserverLabelsValid L = false →
  NewStatsReporter L w = (inl errInvalidKeyName, w).
Proof. apply NewStatsReporter_key_error. Qed.

Lemma NewStatsReporter_invalid_label_witness :
  apiserverLabelsValid emptyNamespaceLabel = false
  ∧ NewStatsReporter emptyNamespaceLabel view.newWorker
    = (inl errInvalidKeyName, view.newWorker).
Proof.
  split; [reflexivity|].
  apply (NewStatsReporter_invalid_label emptyNamespaceLabel view.newWorker).
  reflexivity.
Defined.

(** X7: whatever the worker has counted before, after the test's
    [unregister] a new [NewStatsReporter] succeeds and [N] calls of
    [ReportEventCount] with valid arguments then leave a count of exactly
    [N] in the row of the arguments. *)
Theorem unregister_then_count_from_zero L (N : nat) args err w :
  apiserverLabelsValid L = true → distinctKeys (reporterOf L) = true →
  validArgs args = true → view.wf w →
  ∃ w1 w2,
    NewStatsReporter L (unregister w) = (inr (reporterOf L), w1)
    ∧ times N (ReportEventCount (reporterOf L) args err) w1 = (inr tt, w2)
    ∧ view.countOf "event_count" (eventCountSignature args) w2 = Z.of_nat N.
Proof.
  intros HL Hd Hv Hwf.
  pose proof (Find_unregister w Hwf) as Hf.
  rewrite (NewStatsReporter_eq _ _ HL), Register_eventCountView, Hf.
  eexists. 
  match goal with
  | |- ∃ w2, (_, ?w1) = (_, _) ∧ _ =>
      destruct (ReportEventCount_times N (reporterOf L) args err w1
                  (eventCountSignature args) Hv Hd) as (w2 & Ht & _ & Hc)
  end.
  { unfold eventCountRegistered, view.Find. simpl. by rewrite lookup_insert_eq. }
  exists w2. split; [reflexivity|]. split; [exact Ht|].
  rewrite Hc, decide_True by done.
  unfold view.countOf, view.row. simpl. rewrite lookup_insert_eq. simpl.
  rewrite lookup_empty. simpl. lia.
Qed.

Lemma unregister_then_count_from_zero_witness :
  ∃ w1 w2,
    NewStatsReporter metricskey.knative
      (unregister
         (ReportEventCount (reporterOf metricskey.knative) testArgs None
            freshWorker).2)
    = (inr (reporterOf metricskey.knative), w1)
    ∧ times 2 (ReportEventCount (reporterOf metricskey.knative) testArgs None) w1
      = (inr tt, w2)
    ∧ view.countOf "event_count" (eventCountSignature testArgs) w2 = 2.
Proof.
  apply (unregister_then_count_from_zero metricskey.knative 2 testArgs None
           (ReportEventCount (reporterOf metricskey.knative) testArgs None
              freshWorker).2);
    try (vm_compute; reflexivity).
  apply wf_ReportEventCount, wf_freshWorker.
Defined.

(** X8: [NewStatsReporter] touches nothing but the view named
    [event_count]: every other name finds the same view after the call as
    before it, and the recorded observations are the same. *)
Theorem NewStatsReporter_keeps_other_views L w (name : string) :
  name ≠ "event_count" →
  view.Find name (NewStatsReporter L w).2 = view.Find name w
  ∧ view.recorded (NewStatsReporter L w).2 = view.recorded w.
Proof.
  intros Hn. destruct (apiserverLabelsValid L) eqn:HL.
  - rewrite (NewStatsReporter_eq _ _ HL), Register_eventCountView.
    destruct (view.Find "event_count" w) as [x|]; simpl.
    + by destruct (view.same _ _).
    + unfold view.Find. simpl. by rewrite lookup_insert_ne.
  - by rewrite (NewStatsReporter_key_error _ _ HL).
Qed.

End apiserver_facts.

Lemma NewStatsReporter_keeps_other_views_witness :
  view.Find "event_dispatch_latencies"
    (apiserver.NewStatsReporter metricskey.knative ingressWorker).2
  = view.Find "event_dispatch_latencies" ingressWorker.
Proof.
  apply (NewStatsReporter_keeps_other_views metricskey.knative ingressWorker
           "event_dispatch_latencies").
  discriminate.
Defined.

(** ** The process *)

Section cmd_facts.

Import schema cmd.

Implicit Types (X : externals) (env : envConfig) (L : metricskey.Labels).

(** The loop ends in one of three ways: with the list, silently; with the
    panic of an index out of range; with the fatal log line of an API
    version that does not parse. *)
Lemma buildGVRCs_cases env i apiVersions gvrcs :
  (∃ l, buildGVRCs env i apiVersions gvrcs = ([], inr l))
  ∨ buildGVRCs env i apiVersions gvrcs
    = ([], inl (Panic "runtime error: index out of range"))
  ∨ buildGVRCs env i apiVersions gvrcs
    = ([LogFatal "Error parsing APIVersion"], inl (Exit 1)).
Proof.
  revert i gvrcs. induction apiVersions as [|av rest IH]; intros i gvrcs.
  - left. by eexists.
  - cbn [buildGVRCs]. unfold index.
    destruct (Kind env !! i) as [kind|]; [|right; left; done].
    destruct (Controller env !! i) as [controlled|]; [|right; left; done].
    destruct (ParseGroupVersion av) as [e|gv]; [right; right; done|].
    cbn [pbind pret app].
    destruct (IH (S i) (gvrcs ++
        [mkGVRC (meta.UnsafeGuessKindToResource
                   (mkGroupVersionKind (Group gv) (Version gv) kind)).1
                controlled])%list) as [[l ->]|[-> | ->]]; eauto.
Qed.

Ltac main_step :=
  match goal with
  | |- context [buildGVRCs ?env ?i ?avs ?acc] =>
      let H := fresh "Hloop" in
      destruct (buildGVRCs_cases env i avs acc) as [[? H]|[H|H]]; rewrite H
  | |- context [match ?x with _ => _ end] =>
      lazymatch x with
      | context [match _ with _ => _ end] => fail
      | _ => destruct x eqn:?
      end
  end.

Ltac main_cases tac :=
  unfold main, setup, run, deferred, pbind, pret, panic, Fatal, emit;
  repeat (main_step; simpl; try solve [tac]).

(** An API version that does not parse stops the loop. *)
Lemma buildGVRCs_unparsed env apiVersions : ∀ i gvrcs j av l,
  apiVersions !! j = Some av → parses av = false →
  buildGVRCs env i apiVersions gvrcs ≠ ([], inr l).
Proof.
  unfold parses.
  induction apiVersions as [|a rest IH]; intros i gvrcs j av l Hj Hp; [done|].
  cbn [buildGVRCs]. unfold index.
  destruct (Kind env !! i) as [kind|]; [|done].
  destruct (Controller env !! i) as [controlled|]; [|done].
  destruct j as [|j]; simpl in Hj.
  - injection Hj as ->. by destruct (ParseGroupVersion av).
  - destruct (ParseGroupVersion a) as [e|gv]; [done|].
    cbn [pbind pret app].
    match goal with
    | |- context [buildGVRCs env (S i) rest ?acc] =>
        pose proof (IH (S i) acc j av l Hj Hp) as Hrec;
        destruct (buildGVRCs env (S i) rest acc) as [l' r']
    end.
    simpl. congruence.
Qed.

(** A list of kinds or of controller flags that ends before the list of
    API versions stops the loop. *)
Lemma buildGVRCs_short env apiVersions : ∀ i gvrcs l,
  (i ≤ length (Kind env))%nat → (i ≤ length (Controller env))%nat →
  (length (Kind env) < i + length apiVersions
   ∨ length (Controller env) < i + length apiVersions)%nat →
  buildGVRCs env i apiVersions gvrcs ≠ ([], inr l).
Proof.
  induction apiVersions as [|a rest IH]; intros i gvrcs l Hk Hc Hs.
  - simpl in Hs. lia.
  - cbn [buildGVRCs]. unfold index.
    destruct (Kind env !! i) as [kind|] eqn:Ek; [|done].
    destruct (Controller env !! i) as [controlled|] eqn:Ec; [|done].
    apply lookup_lt_Some in Ek, Ec.
    destruct (ParseGroupVersion a) as [e|gv]; [done|].
    cbn [pbind pret app].
    match goal with
    | |- context [buildGVRCs env (S i) rest ?acc] =>
        pose proof (IH (S i) acc l ltac:(lia) ltac:(lia)) as Hrec;
        destruct (buildGVRCs env (S i) rest acc) as [l' r']
    end.
    simpl in *. intros [= -> ->]. apply Hrec; [lia|done].
Qed.

(** With enough kinds and flags, and API versions that all parse, the loop
    adds one [GVRC] for each API version. *)
Lemma buildGVRCs_long env apiVersions : ∀ i gvrcs,
  (i + length apiVersions ≤ length (Kind env))%nat →
  (i + length apiVersions ≤ length (Controller env))%nat →
  forallb parses apiVersions = true →
  ∃ l, buildGVRCs env i apiVersions gvrcs = ([], inr l)
       ∧ length l = (length gvrcs + length apiVersions)%nat.
Proof.
  induction apiVersions as [|a rest IH]; intros i gvrcs Hk Hc Hp.
  - exists gvrcs. split; [done|]. simpl. lia.
  - cbn [buildGVRCs]. unfold index. simpl in Hk, Hc, Hp.
    apply andb_true_iff in Hp as [Ha Hp]. unfold parses in Ha.
    destruct (lookup_lt_is_Some_2 (Kind env) i ltac:(lia)) as [kind ->].
    destruct (lookup_lt_is_Some_2 (Controller env) i ltac:(lia)) as [c ->].
    destruct (ParseGroupVersion a) as [e|gv]; [done|].
    cbn [pbind pret app].
    match goal with
    | |- context [buildGVRCs env (S i) rest ?acc] =>
        destruct (IH (S i) acc ltac:(lia) ltac:(lia) Hp) as (l & -> & Hl)
    end.
    exists l. split; [done|]. rewrite Hl, length_app. simpl. lia.
Qed.

(** When the loop does not give a list, no adapter is made and the exit
    status is not 0. *)
Lemma main_loop_fails L X env :
  envconfigProcess X = inr env →
  (∀ l, buildGVRCs env 0 (ApiVersion env) [] ≠ ([], inr l)) →
  adaptorCreated (main L X).1 = false ∧ exitStatus (main L X).2 ≠ 0.
Proof.
  intros He Hl. unfold main, setup. rewrite He.
  main_cases ltac:(done).
  all: exfalso; eapply Hl; eauto.
Qed.

(** C2, as the code has it: when the adapter's [Start] returns an error,
    [main] logs the warning "start returned an error," and returns; the
    deferred [flush] runs and the exit status is 0. *)
Theorem main_start_error_is_logged L X (e : error) :
  In (StartReturned (Some e)) (main L X).1 →
  (main L X).2 = Returned
  ∧ exitStatus (main L X).2 = 0
  ∧ In (LogWarn "start returned an error,") (main L X).1
  ∧ last (main L X).1 = Some Flush.
Proof.
  main_cases ltac:(intros H; exfalso; clear -H; intuition discriminate).
  all: intros _; repeat split; auto 10 using in_eq, in_cons.
Qed.

Lemma main_start_error_is_logged_witness :
  In (StartReturned (Some (errorString "mode not understood")))
     (main metricskey.knative
        (exampleRun ["v1"] ["Pod"] [false]
                    (Some (errorString "mode not understood")))).1
  ∧ exitStatus
      (main metricskey.knative
         (exampleRun ["v1"] ["Pod"] [false]
                     (Some (errorString "mode not understood")))).2 = 0.
Proof.
  assert (H : In (StartReturned (Some (errorString "mode not understood")))
     (main metricskey.knative
        (exampleRun ["v1"] ["Pod"] [false]
                    (Some (errorString "mode not understood")))).1).
  { vm_compute. auto 10. }
  split; [exact H|].
  exact (proj1 (proj2 (main_start_error_is_logged _ _ _ H))).
Defined.

(** C2, against the claim: a run in which [Start] returns an error ends
    with exit status 0. *)
Lemma main_start_error_exits_zero :
  main metricskey.knative
    (exampleRun ["v1"] ["Pod"] [false] (Some (errorString "mode not understood")))
  = ([LogInfo "Starting the controller";
      NewAdaptor "https://10.0.0.1"
        (mkOptions "default" "Ref"
           [mkGVRC (mkGroupVersionResource "" "v1" "pods") false])
        "importer";
      LogInfo "starting kubernetes api adapter.";
      StartReturned (Some (errorString "mode not understood"));
      LogWarn "start returned an error,";
      Flush],
     Returned)
  ∧ exitStatus Returned = 0.
Proof. split; vm_compute; reflexivity. Qed.

(** C3, as the code has it: an API version among the descriptors that
    does not parse as a group and version is fatal: no adapter is made and
    the exit status is not 0.  (The resource is guessed from the kind by
    name; the guess has no error result and is not checked.) *)
Theorem main_unparsed_apiVersion_is_fatal L X env (i : nat) (apiVersion : string) :
  envconfigProcess X = inr env →
  ApiVersion env !! i = Some apiVersion →
  parses apiVersion = false →
  adaptorCreated (main L X).1 = false ∧ exitStatus (main L X).2 ≠ 0.
Proof.
  intros He Hi Hp. apply (main_loop_fails L X env He).
  intros l. by eapply buildGVRCs_unparsed.
Qed.

Lemma main_unparsed_apiVersion_is_fatal_witness :
  main metricskey.knative
    (exampleRun ["v1"; "apps/v1/beta"] ["Pod"; "Deployment"] [false; true] None)
  = ([LogInfo "Starting the controller"; LogFatal "Error parsing APIVersion"],
     Exit 1)
  ∧ adaptorCreated
      (main metricskey.knative
         (exampleRun ["v1"; "apps/v1/beta"] ["Pod"; "Deployment"] [false; true]
                     None)).1 = false
  ∧ exitStatus
      (main metricskey.knative
         (exampleRun ["v1"; "apps/v1/beta"] ["Pod"; "Deployment"] [false; true]
                     None)).2 ≠ 0.
Proof.
  split; [vm_compute; reflexivity|].
  apply (main_unparsed_apiVersion_is_fatal metricskey.knative
           (exampleRun ["v1"; "apps/v1/beta"] ["Pod"; "Deployment"] [false; true]
                       None)
           (exampleEnv ["v1"; "apps/v1/beta"] ["Pod"; "Deployment"] [false; true])
           1%nat "apps/v1/beta");
    reflexivity.
Defined.

(** C3, against the claim: a descriptor with an empty kind is not
    resolved, the guess gives the zero resource, and yet the adapter is
    made with it and started. *)
Lemma main_unresolved_kind_starts :
  resolves "v1" "" = false
  ∧ main metricskey.knative (exampleRun ["v1"] [""] [false] None)
    = ([LogInfo "Starting the controller";
        NewAdaptor "https://10.0.0.1"
          (mkOptions "default" "Ref"
             [mkGVRC (mkGroupVersionResource "" "" "") false])
          "importer";
        LogInfo "starting kubernetes api adapter.";
        StartReturned None;
        Flush],
       Returned).
Proof. split; vm_compute; reflexivity. Qed.

(** C4, as the code has it: when the list of kinds or the list of
    controller flags is shorter than the list of API versions, no adapter
    is made and the exit status is not 0; when both are at least as long
    and the API versions parse, the loop gives one [GVRC] for each API
    version, whatever further kinds and flags there are. *)
Theorem main_short_lists_fail L X env :
  envconfigProcess X = inr env →
  ((length (Kind env) < length (ApiVersion env)
    ∨ length (Controller env) < length (ApiVersion env))%nat →
   adaptorCreated (main L X).1 = false ∧ exitStatus (main L X).2 ≠ 0)
  ∧ ((length (ApiVersion env) ≤ length (Kind env))%nat →
     (length (ApiVersion env) ≤ length (Controller env))%nat →
     forallb parses (ApiVersion env) = true →
     ∃ gvrcs, buildGVRCs env 0 (ApiVersion env) [] = ([], inr gvrcs)
              ∧ length gvrcs = length (ApiVersion env)).
Proof.
  intros He. split.
  - intros Hs. apply (main_loop_fails L X env He).
    intros l. apply buildGVRCs_short; simpl; lia.
  - intros Hk Hc Hp.
    destruct (buildGVRCs_long env (ApiVersion env) 0 [] Hk Hc Hp) as (l & H & Hl).
    by exists l.
Qed.

Lemma main_short_lists_fail_witness :
  main metricskey.knative
    (exampleRun ["v1"; "apps/v1"] ["Pod"] [false; true] None)
  = ([LogInfo "Starting the controller"; Flush],
     Panic "runtime error: index out of range")
  ∧ adaptorCreated
      (main metricskey.knative
         (exampleRun ["v1"; "apps/v1"] ["Pod"] [false; true] None)).1 = false
  ∧ exitStatus
      (main metricskey.knative
         (exampleRun ["v1"; "apps/v1"] ["Pod"] [false; true] None)).2 ≠ 0.
Proof.
  split; [vm_compute; reflexivity|].
  apply (proj1 (main_short_lists_fail metricskey.knative
                  (exampleRun ["v1"; "apps/v1"] ["Pod"] [false; true] None)
                  (exampleEnv ["v1"; "apps/v1"] ["Pod"] [false; true])
                  eq_refl)).
  left. simpl. lia.
Defined.

(** C4, against the claim: one API version with two kinds, lists of
    unequal length, and the adapter is made, for the first kind, and
    started. *)
Lemma main_longer_kind_list_starts :
  length (Kind (exampleEnv ["v1"] ["Pod"; "Service"] [false]))
    ≠ length (ApiVersion (exampleEnv ["v1"] ["Pod"; "Service"] [false]))
  ∧ main metricskey.knative (exampleRun ["v1"] ["Pod"; "Service"] [false] None)
    = ([LogInfo "Starting the controller";
        NewAdaptor "https://10.0.0.1"
          (mkOptions "default" "Ref"
             [mkGVRC (mkGroupVersionResource "" "v1" "pods") false])
          "importer";
        LogInfo "starting kubernetes api adapter.";
        StartReturned None;
        Flush],
       Returned).
Proof. split; [simpl; lia | vm_compute; reflexivity]. Qed.

(** ** Further properties of the process *)

(** What the loop gives, when it gives a list: the list it was given,
    followed by one [GVRC] for each API version, made of the API version,
    the kind and the controller flag at the same index. *)
Lemma buildGVRCs_elements env apiVersions : ∀ i gvrcs l,
  buildGVRCs env i apiVersions gvrcs = ([], inr l) →
  ∃ new, l = (gvrcs ++ new)%list
         ∧ length new = length apiVersions
         ∧ ∀ j av, apiVersions !! j = Some av →
             ∃ kind controlled gv,
               Kind env !! (i + j)%nat = Some kind
               ∧ Controller env !! (i + j)%nat = Some controlled
               ∧ ParseGroupVersion av = inr gv
               ∧ new !! j = Some (gvrcOf gv kind controlled).
Proof.
  induction apiVersions as [|a rest IH]; intros i gvrcs l.
  - intros [= <-]. exists []. rewrite app_nil_r. by repeat split.
  - cbn [buildGVRCs]. unfold index.
    destruct (Kind env !! i) as [kind|] eqn:Ek; [|done].
    destruct (Controller env !! i) as [controlled|] eqn:Ec; [|done].
    destruct (ParseGroupVersion a) as [e|gv] eqn:Ep; [done|].
    cbn [pbind pret app]. fold (gvrcOf gv kind controlled).
    destruct (buildGVRCs env (S i) rest (gvrcs ++ [gvrcOf gv kind controlled])%list)
      as [l' r'] eqn:Er.
    intros [= -> ->].
    destruct (IH _ _ _ Er) as (new & -> & Hlen & Hel).
    exists (gvrcOf gv kind controlled :: new).
    split; [by rewrite <- app_assoc|]. split; [simpl; by rewrite Hlen|].
    intros [|j] av Hj; simpl in Hj.
    + injection Hj as <-. rewrite Nat.add_0_r. by exists kind, controlled, gv.
    + destruct (Hel j av Hj) as (k' & c' & gv' & H1 & H2 & H3 & H4).
      exists k', c', gv'. by rewrite <- Nat.add_succ_comm.
Qed.

(** The loop reads the kinds and the flags only at the indices of the API
    versions. *)
Lemma buildGVRCs_ext env env' apiVersions : ∀ i gvrcs,
  (∀ j, (j < i + length apiVersions)%nat →
        Kind env' !! j = Kind env !! j
        ∧ Controller env' !! j = Controller env !! j) →
  buildGVRCs env' i apiVersions gvrcs = buildGVRCs env i apiVersions gvrcs.
Proof.
  induction apiVersions as [|a rest IH]; intros i gvrcs H; [done|].
  cbn [buildGVRCs]. simpl in H. unfold index.
  destruct (H i ltac:(lia)) as [-> ->].
  destruct (Kind env !! i) as [kind|]; [|done].
  destruct (Controller env !! i) as [controlled|]; [|done].
  destruct (ParseGroupVersion a) as [e|gv]; [done|].
  cbn [pbind pret app]. rewrite IH; [done|].
  intros j Hj. apply H. lia.
Qed.

Lemma NewStatsReporter_newWorker L :
  apiserverLabelsValid L = true →
  (apiserver.NewStatsReporter L view.newWorker).1 = inr (reporterOf L).
Proof. intros HL. by rewrite (NewStatsReporter_eq _ _ HL). Qed.

(** X9: the process ends with exit status 0 exactly when the adapter was
    made, and then [main] has returned: every run that stops before
    [NewAdaptor] ends with a status other than 0, and no run fails after
    it. *)
Theorem main_exit_zero_iff_adaptor L X :
  (exitStatus (main L X).2 = 0 ↔ adaptorCreated (main L X).1 = true)
  ∧ (exitStatus (main L X).2 = 0 ↔ (main L X).2 = Returned).
Proof.
  main_cases ltac:(split; split; intros; (done || discriminate || lia)).
Qed.

(** X10: a fatal log line ends the process with status 1 and without the
    deferred [flush]: after [logger.Fatalw] or [logger.Fatalf] neither the
    logger nor the metrics exporter is flushed. *)
Theorem main_fatal_skips_flush L X (msg : string) :
  In (LogFatal msg) (main L X).1 →
  (main L X).2 = Exit 1 ∧ ¬ In Flush (main L X).1.
Proof.
  main_cases ltac:(intros H; first
    [ exfalso; clear -H; intuition discriminate
    | split; [reflexivity|]; clear; intros H'; intuition discriminate ]).
Qed.

Lemma main_fatal_skips_flush_witness :
  (main metricskey.knative
     (exampleRun ["a/b/c"] ["Pod"] [false] None)).2 = Exit 1
  ∧ ¬ In Flush
        (main metricskey.knative (exampleRun ["a/b/c"] ["Pod"] [false] None)).1.
Proof.
  apply (main_fatal_skips_flush metricskey.knative
           (exampleRun ["a/b/c"] ["Pod"] [false] None)
           "Error parsing APIVersion").
  vm_compute. auto.
Defined.

Lemma setup_no_adaptor X : adaptorCreated (setup X).1 = false.
Proof.
  unfold setup, pbind, pret, panic, emit.
  repeat (main_step; simpl; try done).
Qed.

(** X11: when the metrics options decode to a nil pointer, [main], past
    its set-up, logs the decoding error if there is one and then panics on
    the dereference in the call of [metrics.UpdateExporter]: no adapter is
    made, the deferred [flush] runs, and the exit status is 2. *)
Theorem main_nil_metrics_options_panics L X env (err : option error) :
  (setup X).2 = inr env →
  Base64ToMetricsOptions X = (None, err) →
  (main L X).2
    = Panic "runtime error: invalid memory address or nil pointer dereference"
  ∧ exitStatus (main L X).2 = 2
  ∧ adaptorCreated (main L X).1 = false
  ∧ last (main L X).1 = Some Flush.
Proof.
  intros Hs Hm. unfold main, run. rewrite Hm.
  pose proof (setup_no_adaptor X) as Hl.
  destruct (setup X) as [l [e|env']]; simpl in Hs, Hl; [done|].
  injection Hs as ->.
  destruct err; simpl; rewrite ?last_snoc, ?last_app; simpl;
    repeat split; try done;
    unfold adaptorCreated in *; by rewrite existsb_app, Hl.
Qed.

Lemma main_nil_metrics_options_panics_witness :
  (main metricskey.knative
     (mkExternals None (inr (exampleEnv ["v1"] ["Pod"] [false])) None None
        (None, Some (errorString "illegal base64 data")) None
        (inr "https://10.0.0.1") None None None (fun _ _ _ => None))).2
  = Panic "runtime error: invalid memory address or nil pointer dereference".
Proof.
  apply (main_nil_metrics_options_panics metricskey.knative
           (mkExternals None (inr (exampleEnv ["v1"] ["Pod"] [false])) None None
              (None, Some (errorString "illegal base64 data")) None
              (inr "https://10.0.0.1") None None None (fun _ _ _ => None))
           (exampleEnv ["v1"] ["Pod"] [false])
           (Some (errorString "illegal base64 data")) eq_refl eq_refl).
Defined.

(** X12: the adapter is made at most from what the run itself gives: the
    host of the cluster configuration, the environment's namespace and
    mode with the list of the loop, and the environment's importer name;
    and [Start] is then called on that adapter. *)
Theorem main_adaptor_arguments L X (host : string) (opt : Options) (imp : string) :
  In (NewAdaptor host opt imp) (main L X).1 →
  ∃ env gvrcs,
    envconfigProcess X = inr env
    ∧ BuildConfigFromFlags X = inr host
    ∧ buildGVRCs env 0 (ApiVersion env) [] = ([], inr gvrcs)
    ∧ opt = mkOptions (Namespace env) (Mode env) gvrcs
    ∧ imp = ApiServerImporter env
    ∧ In (StartReturned (Start X host opt imp)) (main L X).1.
Proof.
  main_cases ltac:(intros H; exfalso; clear -H; intuition discriminate).
  all: intros H; repeat (destruct H as [H|H]; try discriminate); try done.
  all: injection H as <- <- <-; eexists _, _; repeat split; eauto.
  all: match goal with
       | E : Start _ _ _ _ = _ |- _ => rewrite E
       end; auto 10 using in_eq, in_cons.
Qed.

Lemma main_adaptor_arguments_witness :
  ∃ env gvrcs,
    envconfigProcess (exampleRun ["apps/v1"] ["Deployment"] [true] None) = inr env
    ∧ buildGVRCs env 0 (ApiVersion env) [] = ([], inr gvrcs)
    ∧ mkOptions "default" "Ref"
        [mkGVRC (mkGroupVersionResource "apps" "v1" "deployments") true]
      = mkOptions (Namespace env) (Mode env) gvrcs.
Proof.
  destruct (main_adaptor_arguments metricskey.knative
              (exampleRun ["apps/v1"] ["Deployment"] [true] None)
              "https://10.0.0.1"
              (mkOptions "default" "Ref"
                 [mkGVRC (mkGroupVersionResource "apps" "v1" "deployments") true])
              "importer")
    as (env & gvrcs & H1 & _ & H3 & H4 & _).
  { vm_compute. auto. }
  exists env, gvrcs. auto.
Defined.

(** X13: when the loop of [main] gives a list, the list has one [GVRC] for
    each API version, in order, and the one at index [j] is made of the
    group and version parsed from the API version at [j], the resource
    guessed for the kind at [j], and the controller flag at [j]. *)
Theorem buildGVRCs_by_index env (l : list GVRC) :
  buildGVRCs env 0 (ApiVersion env) [] = ([], inr l) →
  length l = length (ApiVersion env)
  ∧ ∀ (j : nat) (apiVersion : string),
      ApiVersion env !! j = Some apiVersion →
      ∃ kind controlled gv,
        Kind env !! j = Some kind
        ∧ Controller env !! j = Some controlled
        ∧ ParseGroupVersion apiVersion = inr gv
        ∧ l !! j = Some (gvrcOf gv kind controlled).
Proof.
  intros H. destruct (buildGVRCs_elements _ _ _ _ _ H) as (new & -> & Hlen & Hel).
  split; [done|]. intros j av Hj. by apply Hel.
Qed.

Lemma buildGVRCs_by_index_witness :
  length [mkGVRC (mkGroupVersionResource "" "v1" "pods") false;
          mkGVRC (mkGroupVersionResource "apps" "v1" "deployments") true]
  = length (ApiVersion (exampleEnv ["v1"; "apps/v1"] ["Pod"; "Deployment"]
                          [false; true])).
Proof.
  apply (buildGVRCs_by_index
           (exampleEnv ["v1"; "apps/v1"] ["Pod"; "Deployment"] [false; true])).
  vm_compute. reflexivity.
Defined.

(** X14: a failure of the set-up of tracing changes nothing but the log:
    the process ends the same way and, the error line of tracing apart,
    does the same things in the same order. *)
Theorem main_tracing_error_not_fatal L X (r : option error) :
  (main L (withTracing X r)).2 = (main L X).2
  ∧ List.filter (fun e => negb (isTraceError e)) (main L (withTracing X r)).1
    = List.filter (fun e => negb (isTraceError e)) (main L X).1.
Proof.
  unfold main, setup, run, deferred, pbind, pret, panic, Fatal, emit,
    withTracing.
  simpl.
  repeat (main_step; simpl; try done).
Qed.

(** X15: with label constants that are key names, [NewStatsReporter]
    cannot fail in [main], where the worker is that of a process just
    started: the fatal line "Error building statsreporter" is never
    logged. *)
Theorem main_reporter_is_built L X :
  apiserverLabelsValid L = true →
  ¬ In (LogFatal "Error building statsreporter") (main L X).1.
Proof.
  intros HL. pose proof (NewStatsReporter_newWorker L HL) as Hr.
  main_cases ltac:(first [ congruence
                         | intros H; clear -H; intuition discriminate ]).
Qed.

Lemma main_reporter_is_built_witness :
  ¬ In (LogFatal "Error building statsreporter")
       (main metricskey.knative (exampleRun ["v1"] ["Pod"] [false] None)).1.
Proof.
  apply (main_reporter_is_built metricskey.knative
           (exampleRun ["v1"] ["Pod"] [false] None)).
  reflexivity.
Defined.

(** X16: the kinds and the controller flags beyond the last index of the
    API versions do not reach the adapter: two environments that differ
    only there end the process the same way, and make and start the
    adapter, if they do, with the same host, options and importer name.
    (The log line before [Start], which prints the environment, is left
    out of the comparison.) *)
Theorem main_further_kinds_do_not_reach_adaptor L X env (kind : list string)
    (controller : list bool) :
  envconfigProcess X = inr env →
  take (length (ApiVersion env)) kind = take (length (ApiVersion env)) (Kind env) →
  take (length (ApiVersion env)) controller
    = take (length (ApiVersion env)) (Controller env) →
  (main L (withEnv X (withKinds env kind controller))).2 = (main L X).2
  ∧ List.filter isAdaptorEvent
      (main L (withEnv X (withKinds env kind controller))).1
    = List.filter isAdaptorEvent (main L X).1.
Proof.
  intros He Hk Hc.
  assert (Hloop : ∀ gvrcs,
            buildGVRCs (withKinds env kind controller) 0 (ApiVersion env) gvrcs
            = buildGVRCs env 0 (ApiVersion env) gvrcs).
  { intros gvrcs. apply buildGVRCs_ext. simpl. intros j Hj. split.
    - rewrite <- (lookup_take_lt kind (length (ApiVersion env)) j) by lia.
      rewrite <- (lookup_take_lt (Kind env) (length (ApiVersion env)) j) by lia.
      by rewrite Hk.
    - rewrite <- (lookup_take_lt controller (length (ApiVersion env)) j) by lia.
      rewrite <- (lookup_take_lt (Controller env) (length (ApiVersion env)) j)
        by lia.
      by rewrite Hc. }
  assert (Hrun : run L (withEnv X (withKinds env kind controller))
                      (withKinds env kind controller) = run L X env).
  { unfold run, withEnv, withKinds in *. simpl. by rewrite Hloop. }
  unfold main, setup. rewrite He.
  change (flagParse (withEnv X ?e)) with (flagParse X).
  change (envconfigProcess (withEnv X ?e)) with (@inr error envConfig e).
  change (Base64ToLoggingConfig (withEnv X ?e)) with (Base64ToLoggingConfig X).
  change (NewConfigFromMap (withEnv X ?e)) with (NewConfigFromMap X).
  unfold pbind, pret, panic, emit.
  destruct (flagParse X); [done|].
  destruct (Base64ToLoggingConfig X); [destruct (NewConfigFromMap X)|];
    simpl; by rewrite ?Hrun.
Qed.

Lemma main_further_kinds_do_not_reach_adaptor_witness :
  List.filter isAdaptorEvent
    (main metricskey.knative
       (withEnv (exampleRun ["v1"] ["Pod"; "Service"] [false] None)
          (withKinds (exampleEnv ["v1"] ["Pod"; "Service"] [false])
                     ["Pod"] [false; true]))).1
  = [NewAdaptor "https://10.0.0.1"
       (mkOptions "default" "Ref"
          [mkGVRC (mkGroupVersionResource "" "v1" "pods") false])
       "importer";
     StartReturned None].
Proof.
  rewrite (proj2 (main_further_kinds_do_not_reach_adaptor metricskey.knative
                    (exampleRun ["v1"] ["Pod"; "Service"] [false] None)
                    (exampleEnv ["v1"] ["Pod"; "Service"] [false])
                    ["Pod"] [false; true] eq_refl eq_refl eq_refl)).
  vm_compute. reflexivity.
Defined.



End cmd_facts.


(** ** Decimal strings *)

Section strconv_facts.

Lemma isASCII_string_of_uint d : tag.isASCII (NilEmpty.string_of_uint d) = true.
Proof. induction d; simpl; auto. Qed.

Lemma length_string_of_uint d :
  String.length (NilEmpty.string_of_uint d) = Decimal.nb_digits d.
Proof. induction d; simpl; auto. Qed.

Lemma nb_digits_double d :
  (Decimal.nb_digits (Decimal.Little.double d) ≤ S (Decimal.nb_digits d)
   ∧ Decimal.nb_digits (Decimal.Little.succ_double d) ≤ S (Decimal.nb_digits d))%nat.
Proof. induction d; simpl; lia. Qed.

Lemma nb_digits_to_little_uint p :
  (Decimal.nb_digits (Pos.to_little_uint p) ≤ Pos.size_nat p)%nat.
Proof.
  induction p as [p IH|p IH|]; simpl; [| |lia].
  - pose proof (proj2 (nb_digits_double (Pos.to_little_uint p))). lia.
  - pose proof (proj1 (nb_digits_double (Pos.to_little_uint p))). lia.
Qed.

Lemma nb_digits_to_uint p :
  Z.pos p ≤ 9223372036854775808 →
  (Decimal.nb_digits (Pos.to_uint p) ≤ 64)%nat.
Proof.
  intros Hz.
  assert (Hp : (p ≤ 9223372036854775808)%positive).
  { unfold Z.le in Hz. unfold Pos.le. rewrite Pos2Z.inj_compare. exact Hz. }
  clear Hz. unfold Pos.to_uint. rewrite DecimalFacts.nb_digits_rev.
  etransitivity; [apply nb_digits_to_little_uint|].
  change 64%nat with (Pos.size_nat 9223372036854775808).
  apply Pos.le_lteq in Hp as [Hp| ->]; [|done].
  by apply Pos.size_nat_monotone.
Qed.

Lemma NilZero_string_of_uint_valid d :
  (String.length (NilZero.string_of_uint d) ≤ S (Decimal.nb_digits d))%nat
  ∧ tag.isASCII (NilZero.string_of_uint d) = true.
Proof.
  destruct d; [split; [simpl; lia | reflexivity]|..];
    (split; [change (NilZero.string_of_uint ?x) with (NilEmpty.string_of_uint x);
             rewrite length_string_of_uint; lia
            |apply isASCII_string_of_uint]).
Qed.

(** The decimal form of a 64-bit integer has at most 66 characters, all
    of them accepted in a tag value. *)
Lemma Itoa_valid z :
  isInt z = true →
  (String.length (strconv.Itoa z) ≤ 66)%nat
  ∧ tag.isASCII (strconv.Itoa z) = true.
Proof.
  unfold isInt. intros H.
  apply andb_true_iff in H as [Hlo Hhi].
  apply Z.leb_le in Hlo. apply Z.ltb_lt in Hhi.
  change (2 ^ 63) with 9223372036854775808 in Hlo, Hhi.
  unfold strconv.Itoa, NilZero.string_of_int, Z.to_int.
  destruct z as [|p|p]; [split; [simpl; lia | reflexivity]| |].
  - assert (Hz : Z.pos p ≤ 9223372036854775808) by lia.
    pose proof (nb_digits_to_uint p Hz) as Hn.
    destruct (NilZero_string_of_uint_valid (Pos.to_uint p)) as [Hl Ha].
    split; [lia | done].
  - assert (Hz : Z.pos p ≤ 9223372036854775808) by lia.
    pose proof (nb_digits_to_uint p Hz) as Hn.
    destruct (NilZero_string_of_uint_valid (Pos.to_uint p)) as [Hl Ha].
    change (String.length (String ?c ?s)) with (S (String.length s)).
    change (tag.isASCII (String ?c ?s))
      with (tag.validChar c && tag.isASCII s).
    rewrite Ha. split; [lia | done].
Qed.

Lemma checkValue_Itoa z :
  isInt z = true → tag.checkValue (strconv.Itoa z) = true.
Proof.
  intros H. destruct (Itoa_valid z H) as [Hl Ha].
  unfold tag.checkValue. rewrite Ha, andb_true_r.
  apply Nat.leb_le. unfold tag.maxKeyLength. lia.
Qed.

Lemma isASCII_append s t :
  tag.isASCII (s ++ t) = tag.isASCII s && tag.isASCII t.
Proof.
  unfold tag.isASCII. induction s as [|c s IH]; simpl; [done|].
  by rewrite IH, andb_assoc.
Qed.

Lemma length_append s t :
  String.length (s ++ t) = (String.length s + String.length t)%nat.
Proof. induction s as [|c s IH]; simpl; [done|]. by rewrite IH. Qed.

Lemma isInt_quot z : isInt z = true → isInt (z ÷ 100) = true.
Proof.
  unfold isInt. intros H.
  apply andb_true_iff in H as [Hlo Hhi].
  apply Z.leb_le in Hlo. apply Z.ltb_lt in Hhi.
  change (2 ^ 63) with 9223372036854775808 in *.
  apply andb_true_iff. rewrite Z.leb_le, Z.ltb_lt.
  Z.to_euclidean_division_equations. lia.
Qed.

Lemma checkValue_ResponseCodeClass z :
  isInt z = true → tag.checkValue (ingress.ResponseCodeClass z) = true.
Proof.
  intros H. destruct (Itoa_valid (z ÷ 100) (isInt_quot z H)) as [Hl Ha].
  unfold tag.checkValue, ingress.ResponseCodeClass.
  rewrite isASCII_append, Ha, length_append. simpl.
  rewrite andb_true_r. apply Nat.leb_le. unfold tag.maxKeyLength. lia.
Qed.

End strconv_facts.

(** ** The ingress reporter *)

Section ingress_facts.

Import ingress.

Implicit Types (r : reporter) (args : ReportArgs) (w : view.worker)
  (code : Z).

Lemma ingressDistinctKeys_NoDup r :
  ingressDistinctKeys r = true → NoDup (tagKeys r).
Proof. unfold ingressDistinctKeys. apply bool_decide_eq_true_1. Qed.

Ltac split_ingress_keys H :=
  apply ingressDistinctKeys_NoDup in H; unfold tagKeys in H;
  repeat match type of H with
         | NoDup (_ :: _) => apply NoDup_cons in H as [? H]
         end;
  repeat match goal with
         | N : _ ∉ _ :: _ |- _ => apply not_elem_of_cons in N as [? N]
         end.

Lemma ingress_generateTag_valid r args code :
  ingressValidArgs args = true → isInt code = true →
  generateTag r args code = inr (ingressTags r args code).
Proof.
  unfold ingressValidArgs. rewrite !andb_true_iff.
  intros [[[H1 H2] H3] H4] Hc.
  unfold generateTag, tag.New, tag.mutate, tag.Insert, ingressTags.
  by rewrite H1, H2, H3, H4, (checkValue_Itoa _ Hc),
       (checkValue_ResponseCodeClass _ Hc).
Qed.

Ltac tag_none :=
  repeat (rewrite lookup_tag_insert_ne by congruence); apply lookup_empty.

Ltac tag_some :=
  repeat (rewrite lookup_tag_insert_ne by congruence);
  apply lookup_tag_insert_fresh; tag_none.

Lemma ingressTags_lookup r args code :
  ingressDistinctKeys r = true →
  ingressTags r args code !! namespaceTagKey r = Some (ns args)
  ∧ ingressTags r args code !! brokerTagKey r = Some (broker args)
  ∧ ingressTags r args code !! eventTypeTagKey r = Some (eventType args)
  ∧ ingressTags r args code !! eventSourceTagKey r = Some (eventSource args)
  ∧ ingressTags r args code !! responseCodeKey r = Some (strconv.Itoa code)
  ∧ ingressTags r args code !! responseCodeClassKey r
    = Some (ResponseCodeClass code).
Proof.
  intros H. split_ingress_keys H. unfold ingressTags.
  repeat split; tag_some.
Qed.

Lemma ingressTags_signature r args code :
  ingressDistinctKeys r = true →
  view.encodeWithKeys (ingressTags r args code) (tagKeys r)
  = ingressSignature args code.
Proof.
  intros H.
  destruct (ingressTags_lookup r args code H) as (H1 & H2 & H3 & H4 & H5 & H6).
  unfold ingressSignature, tagKeys, view.encodeWithKeys. cbn [map].
  by rewrite H1, H2, H3, H4, H5, H6.
Qed.

Lemma ingress_ReportEventCount_eq r args code w :
  ingressValidArgs args = true → isInt code = true →
  ReportEventCount r args code w =
  (inr tt, view.Record_ (ingressTags r args code) (stats.M eventCountM 1) w).
Proof.
  intros Hv Hc. unfold ReportEventCount, bind, lift, Record_.
  by rewrite ingress_generateTag_valid.
Qed.

Lemma ingress_ReportEventDispatchTime_eq r args code d w :
  ingressValidArgs args = true → isInt code = true →
  ReportEventDispatchTime r args code d w =
  (inr tt,
   view.Record_ (ingressTags r args code)
     (stats.M dispatchTimeInMsecM (d ÷ time.Millisecond)) w).
Proof.
  intros Hv Hc. unfold ReportEventDispatchTime, bind, lift, Record_.
  by rewrite ingress_generateTag_valid.
Qed.





(** The test's scenario as the test reads it: one row in each view, with
    the six tags the test wants, the count 2, and the samples 1100 and
    9100. *)
Example ingress_TestStatsReporter :
  (NewStatsReporter metricskey.knative [] view.newWorker).1 = inr ingressReporter
  ∧ view.RetrieveData "event_count"
      (times 2 (ReportEventCount ingressReporter ingressTestArgs 202)
             ingressWorker).2
    = Some [view.mkRow
              {[ "namespace_name" := "testns"; "broker_name" := "testbroker";
                 "event_type" := "testeventtype";
                 "event_source" := "testeventsource";
                 "response_code" := "202"; "response_code_class" := "2xx" ]}
              (view.CountData 2)]
  ∧ view.RetrieveData "event_dispatch_latencies"
      (bind (ReportEventDispatchTime ingressReporter ingressTestArgs 202
               (1100 * time.Millisecond))
            (fun _ => ReportEventDispatchTime ingressReporter ingressTestArgs 202
                        (9100 * time.Millisecond))
            ingressWorker).2
    = Some [view.mkRow
              {[ "namespace_name" := "testns"; "broker_name" := "testbroker";
                 "event_type" := "testeventtype";
                 "event_source" := "testeventsource";
                 "response_code" := "202"; "response_code_class" := "2xx" ]}
              (view.DistributionData [1100; 9100])].
Proof. repeat split; vm_compute; reflexivity. Qed.

End ingress_facts.
